(** * geoip2_tools.database: the [Geoip2DataBase] manager

    A shallow embedding of [src/geoip2_tools/database.py].  The class keeps a
    little configuration (edition, directory, license key), computes the
    path of the installed [.mmdb] file, downloads it under a file lock and
    hands out a cached reader.  Everything the class touches outside of its
    own fields (file system, environment, network, the lock table) lives in
    an explicit [World] that the methods thread through.

    Embedded are [__init__], [path], [exists], [download_params],
    [download] and [reader].  [updated_at] is left out: it reads a
    modification time through [os.stat], which follows symbolic links,
    and the world keeps neither links nor times. *)

From Stdlib Require Import Init.Byte Strings.Byte.
From Stdlib Require Import Strings.Ascii.
From stdpp Require Import gmap strings list.

Open Scope string_scope.

(** ** Exceptions *)

(** [OSError] stands for the class and its subclasses
    ([FileNotFoundError], [NotADirectoryError], [IsADirectoryError],
    [FileExistsError]), and [RequestException] for the class and its
    subclasses: the module treats none of them apart.  [ReadError] is
    whatever [tarfile] raises on a body it cannot read, be it
    [tarfile.ReadError] or the [EOFError] of a gzip stream cut short. *)
Inductive exn :=
| AssertionError (msg : string)
| DatabaseNotExists (msg : string)
| OSError (filename : string)
| LockException (filename : string)
| RequestException
| ReadError
| StopIteration
| KeyError (key : string)
| ExtractError (member : string)
| InvalidDatabaseError (filename : string).

(** ** Python values used by the module *)

Abbreviation bytes := (list byte).

#[global] Instance byte_eq_dec : EqDecision byte := Byte.byte_eq_dec.

(** Truthiness of an [Optional[str]]: [None] and [''] are falsy. *)
Definition truthy (s : option string) : bool :=
  match s with
  | Some s => negb (String.eqb s "")
  | None => false
  end.

(** [a or b] on optional strings. *)
Definition py_or (a b : option string) : option string :=
  if truthy a then a else b.

(** [next(iter(l))] *)
Definition next {A} (l : list A) : exn + A :=
  match l with
  | x :: _ => inr x
  | [] => inl StopIteration
  end.

(** [s.startswith(p)] *)
Fixpoint startswith (s p : string) {struct p} : bool :=
  match p, s with
  | EmptyString, _ => true
  | String _ _, EmptyString => false
  | String c p', String d s' => Ascii.eqb c d && startswith s' p'
  end.

(** [c in s] for a one-character [c] *)
Fixpoint contains (c : ascii) (s : string) : bool :=
  match s with
  | EmptyString => false
  | String d s' => Ascii.eqb c d || contains c s'
  end.

(** [s.replace(a, b)] for one-character [a] and [b] *)
Fixpoint replace (a b : ascii) (s : string) : string :=
  match s with
  | EmptyString => EmptyString
  | String d s' => String (if Ascii.eqb a d then b else d) (replace a b s')
  end.

(** [s.endswith(suf)]: some tail of [s] is [suf]. *)
Fixpoint endswith (s suf : string) : bool :=
  String.eqb s suf ||
  match s with
  | EmptyString => false
  | String _ s' => endswith s' suf
  end.

(** ** Module-level constants *)

Definition DATABASE_ALIASES : gmap string string :=
  <["asn" := "GeoLite2-ASN"]>
  (<["country" := "GeoLite2-Country"]>
  (<["city" := "GeoLite2-City"]> ∅)).

Definition GEOIP2_DOWNLOAD_URL : string :=
  "https://download.maxmind.com/app/geoip_download".
Definition GEOIP2_MAXMIND_LICENSE_KEY_ENVNAME : string :=
  "GEOIP2_MAXMIND_LICENSE_KEY".
Definition DOWNLOAD_CHUNK_SIZE : nat := 1024 * 4.

(** ** The world outside the interpreter *)

(** *** File system

    A file system maps resolved paths to nodes.  A resolved path is the
    list of its components, innermost first, so that the parent of [k]
    is [tail k] and the root is [[]].  There are no symbolic links. *)

Inductive node :=
| Dir
| File (content : bytes).

Abbreviation key := (list string).

Definition entry (fs : gmap key node) (k : key) : option node :=
  match k with
  | [] => Some Dir
  | _ => fs !! k
  end.

Definition is_dir (fs : gmap key node) (k : key) : bool :=
  match entry fs k with
  | Some Dir => true
  | _ => false
  end.

(** [s.split('/')] *)
Fixpoint split (s : string) : list string :=
  match s with
  | EmptyString => [EmptyString]
  | String c s' =>
      if Ascii.eqb c "/"%char then EmptyString :: split s'
      else match split s' with
           | h :: t => String c h :: t
           | [] => [String c EmptyString]
           end
  end.

(** One step of path resolution: a component is looked up in the current
    node, which therefore has to be a directory. *)
Definition step (fs : gmap key node) (cur : key) (c : string) : option key :=
  if is_dir fs cur then
    Some (if String.eqb c "" || String.eqb c "." then cur
          else if String.eqb c ".." then tail cur
          else c :: cur)
  else None.

Fixpoint walk (fs : gmap key node) (cur : key) (comps : list string) : option key :=
  match comps with
  | [] => Some cur
  | c :: cs =>
      match step fs cur c with
      | Some k => walk fs k cs
      | None => None
      end
  end.

(** Resolution of a path name against the working directory [cwd]; the
    empty name resolves to nothing. *)
Definition resolve (fs : gmap key node) (cwd : key) (p : string) : option key :=
  if String.eqb p "" then None
  else walk fs (if startswith p "/" then [] else cwd) (split p).

Definition lstat (fs : gmap key node) (cwd : key) (p : string) : option node :=
  match resolve fs cwd p with
  | Some k => entry fs k
  | None => None
  end.

(** *** Network *)

(** What [requests.get(..., stream=True)] hands back: the chunks that
    [iter_content] will yield and whether the stream breaks after them.
    The status code is not part of the model, the module never reads it. *)
Record Response := {
  iter_content : list bytes;
  stream_breaks : bool
}.

(** *** Observable actions *)

Inductive event :=
| EvStat (filename : string)
| EvOpen (filename : string) (mode : string)
| EvLock (filename : string)
| EvTruncate (filename : string)
| EvUnlock (filename : string)
| EvWrite (filename : string) (data : bytes)
| EvMakedirs (name : string)
| EvHttpGet (url : string) (params : list (string * string))
| EvReaderOpen (filename : string).

Record World := {
  fs : gmap key node;
  cwd : key;
  environ : gmap string string;
  (** files whose advisory lock is held by another process *)
  locked : gset key;
  (** the remote end: [None] is a transport failure *)
  net : string -> list (string * string) -> option Response;
  (** actions performed so far, oldest first *)
  trace : list event;
  (** allocation counter, the identity of the next object created *)
  next_id : nat
}.

Definition set_fs (f : gmap key node) (w : World) : World :=
  {| fs := f; cwd := cwd w; environ := environ w; locked := locked w;
     net := net w; trace := trace w; next_id := next_id w |}.

Definition logs (evs : list event) (w : World) : World :=
  {| fs := fs w; cwd := cwd w; environ := environ w; locked := locked w;
     net := net w; trace := trace w ++ evs; next_id := next_id w |}.

Definition log (e : event) : World -> World := logs [e].

Definition bump (w : World) : World :=
  {| fs := fs w; cwd := cwd w; environ := environ w; locked := locked w;
     net := net w; trace := trace w; next_id := S (next_id w) |}.

(** ** Computations: state plus exceptions *)

Definition M (A : Type) : Type := World -> (exn + A) * World.

Definition ret {A} (a : A) : M A := fun w => (inr a, w).
Definition raise {A} (e : exn) : M A := fun w => (inl e, w).
Definition bind {A B} (m : M A) (f : A -> M B) : M B :=
  fun w =>
    match m w with
    | (inr a, w') => f a w'
    | (inl e, w') => (inl e, w')
    end.
(** [try: m finally: h] *)
Definition finally {A} (m : M A) (h : World -> World) : M A :=
  fun w => let '(r, w') := m w in (r, h w').
Definition emit (e : event) : M unit := fun w => (inr tt, log e w).
Definition get_world : M World := fun w => (inr w, w).

Declare Scope M_scope.
Delimit Scope M_scope with M.
Notation "x <- m ;; k" := (bind m (fun x => k))
  (at level 100, m at next level, right associativity) : M_scope.
Notation "m ;;; k" := (bind m (fun _ => k))
  (at level 100, right associativity) : M_scope.
Open Scope M_scope.

(** ** os and os.path (posixpath) *)

Module os.
Module path.

Definition sep : string := "/".

(** [os.path.join(a, b)]: an absolute [b] wins, an empty [a] or one that
    already ends with the separator is extended in place, otherwise the
    separator is inserted. *)
Definition join (a b : string) : string :=
  if startswith b sep then b
  else if String.eqb a "" || endswith a sep then a ++ b
  else a ++ sep ++ b.

(** [os.path.lexists(p)]: [lstat] succeeds. *)
Definition lexists (p : string) : M bool :=
  fun w =>
    (inr (match lstat (fs w) (cwd w) p with Some _ => true | None => false end),
     log (EvStat p) w).

(** Size reported for a directory; the module only ever measures the
    regular file it has just opened. *)
Definition dir_st_size : nat := 4096.

(** [os.path.getsize(p)] *)
Definition getsize (p : string) : M nat :=
  fun w =>
    match lstat (fs w) (cwd w) p with
    | Some (File c) => (inr (length c), log (EvStat p) w)
    | Some Dir => (inr dir_st_size, log (EvStat p) w)
    | None => (inl (OSError p), log (EvStat p) w)
    end.

End path.

(** The directories [os.makedirs(name, exist_ok=True)] leaves behind:
    every missing component on the way is created; [None] when something
    that is not a directory is in the way. *)
Fixpoint mkdirs (fs : gmap key node) (cur : key) (comps : list string)
  : option (gmap key node) :=
  match comps with
  | [] => if is_dir fs cur then Some fs else None
  | c :: cs =>
      if is_dir fs cur then
        if String.eqb c "" || String.eqb c "." then mkdirs fs cur cs
        else if String.eqb c ".." then mkdirs fs (tail cur) cs
        else match entry fs (c :: cur) with
             | None => mkdirs (<[c :: cur := Dir]> fs) (c :: cur) cs
             | Some _ => mkdirs fs (c :: cur) cs
             end
      else None
  end.

(** [os.makedirs(name, exist_ok=True)] *)
Definition makedirs (name : string) : M unit :=
  fun w =>
    let w := log (EvMakedirs name) w in
    if String.eqb name "" then (inl (OSError name), w)
    else match mkdirs (fs w) (if startswith name "/" then [] else cwd w) (split name) with
         | Some f => (inr tt, set_fs f w)
         | None => (inl (OSError name), w)
         end.

End os.

(** ** File objects *)

(** An open file: the name it was opened under and the node it is bound
    to.  Every handle of this module is opened for appending, so a write
    lands at the end of the file. *)
Record FileHandle := {
  fh_name : string;
  fh_key : key
}.

(** [open(filename, mode)] for the modes ['r'], ['w'] and ['a'] (with or
    without ['b']). *)
Definition open_ (filename mode : string) : M FileHandle :=
  fun w =>
    let w := log (EvOpen filename mode) w in
    match resolve (fs w) (cwd w) filename with
    | None => (inl (OSError filename), w)
    | Some k =>
        let fh := {| fh_name := filename; fh_key := k |} in
        match entry (fs w) k with
        | Some Dir => (inl (OSError filename), w)
        | Some (File _) =>
            if contains "w" mode
            then (inr fh, set_fs (<[k := File []]> (fs w)) w)
            else (inr fh, w)
        | None =>
            if (contains "w" mode || contains "a" mode) && is_dir (fs w) (tail k)
            then (inr fh, set_fs (<[k := File []]> (fs w)) w)
            else (inl (OSError filename), w)
        end
    end.

(** [fh.write(data)] *)
Definition write (fh : FileHandle) (data : bytes) : M unit :=
  fun w =>
    let w := log (EvWrite (fh_name fh) data) w in
    match fs w !! fh_key fh with
    | Some (File c) => (inr tt, set_fs (<[fh_key fh := File (c ++ data)]> (fs w)) w)
    | _ => (inr tt, w)
    end.

(** [fh.seek(0); fh.truncate(0)] *)
Definition truncate0 (fh : FileHandle) : M unit :=
  fun w =>
    let w := log (EvTruncate (fh_name fh)) w in
    match fs w !! fh_key fh with
    | Some (File _) => (inr tt, set_fs (<[fh_key fh := File []]> (fs w)) w)
    | _ => (inr tt, w)
    end.

(** ** portalocker *)

Module portalocker.

(** [portalocker.Lock(filename, mode)]: a ['w'] in the mode is turned
    into ['a'] plus a truncation once the lock is held, so that the file
    is not emptied under another holder. *)
Record Lock := {
  filename : string;
  mode : string;
  truncate : bool
}.

Definition Lock_init (filename mode : string) : Lock :=
  if contains "w" mode
  then {| filename := filename; mode := replace "w" "a" mode; truncate := true |}
  else {| filename := filename; mode := mode; truncate := false |}.

(** [Lock.acquire()]: open, lock ([LockException] when another process
    keeps the lock past the timeout), then prepare the handle. *)
Definition acquire (l : Lock) : M FileHandle :=
  fh <- open_ (filename l) (mode l) ;;
  w <- get_world ;;
  if bool_decide (fh_key fh ∈ locked w) then raise (LockException (filename l))
  else
    emit (EvLock (filename l)) ;;;
    (if truncate l then truncate0 fh else ret tt) ;;;
    ret fh.

(** [Lock.release()] *)
Definition release (l : Lock) : World -> World := log (EvUnlock (filename l)).

(** [with portalocker.Lock(filename, mode) as fh: body] *)
Definition with_Lock {A} (filename mode : string) (body : FileHandle -> M A) : M A :=
  let l := Lock_init filename mode in
  fh <- acquire l ;;
  finally (body fh) (release l).

End portalocker.

(** The world once [Lock(p, 'wb')] is held on the file resolved to [k]. *)
Definition locked_world (p : string) (k : key) (w : World) : World :=
  log (EvTruncate p)
    (log (EvLock p)
       (set_fs (<[k := File []]> (fs w)) (log (EvOpen p "ab") w))).

(** ** requests *)

Module requests.

(** [requests.get(url, params=params, stream=True)] *)
Definition get (url : string) (params : list (string * string)) : M Response :=
  fun w =>
    let w := log (EvHttpGet url params) w in
    match net w url params with
    | Some r => (inr r, w)
    | None => (inl RequestException, w)
    end.

End requests.

(** ** tarfile and geoip2 *)

Module tarfile.

(** A member of an archive; [data] is [None] for a member that is not a
    regular file (a directory, a link). *)
Record TarInfo := {
  name : string;
  data : option bytes
}.

(** [tar.getnames()] *)
Definition getnames (tar : list TarInfo) : list string := map name tar.

End tarfile.

Module geoip2.

(** A [geoip2.database.Reader]: [id] is the identity of the object,
    [buffer] the database it loaded when it was opened. *)
Record Reader := {
  id : nat;
  fileish : string;
  buffer : bytes
}.

End geoip2.

(** What the module takes from outside and the model keeps abstract. *)
Class Externals := {
  (** [os.path.expanduser('~/.config/geoip2-tools/')] at import *)
  DEFAULT_GEOIP2_TOOLS_DIRECTORY : string;
  (** [os.environ] at import *)
  import_environ : gmap string string;
  (** the members of a gzip-compressed tar archive, [None] when
      [tarfile.open(mode="r:gz")] cannot read it *)
  tar_members : bytes -> option (list tarfile.TarInfo);
  (** whether [geoip2.database.Reader] accepts the bytes as a database *)
  mmdb_valid : bytes -> bool
}.

Section Model.
Context {ext : Externals}.

Definition GEOIP2_TOOLS_DIRECTORY : string :=
  default DEFAULT_GEOIP2_TOOLS_DIRECTORY (import_environ !! "GEOIP2_TOOLS_DIRECTORY").

(** [tarfile.open(mode="r:gz", fileobj=t)] with [t] rewound.  The
    members are read here; a body that [tarfile] gives up on, in [open]
    or only in [getnames], is given up on here, with the one
    [ReadError] that stands for all such failures. *)
Definition tarfile_open (t : bytes) : M (list tarfile.TarInfo) :=
  match tar_members t with
  | Some tar => ret tar
  | None => raise ReadError
  end.

(** [geoip2.database.Reader(fileish)] *)
Definition Reader_init (fileish : string) : M geoip2.Reader :=
  fun w =>
    let w := log (EvReaderOpen fileish) w in
    match lstat (fs w) (cwd w) fileish with
    | Some (File c) =>
        if mmdb_valid c
        then (inr {| geoip2.id := next_id w; geoip2.fileish := fileish;
                     geoip2.buffer := c |}, bump w)
        else (inl (InvalidDatabaseError fileish), w)
    | _ => (inl (OSError fileish), w)
    end.

(** Modelled from the spec: [geoip2_tools.utils.extract_file_to] is
    imported by the module but is not among the sources.  The spec has it
    extract exactly the located member's byte content and write it into
    the already open, lock-held file handle.  The member is located by
    the name [download] passes; one without content cannot be extracted.
    The content goes out in a single write: a helper that writes in
    pieces and fails between two of them is not described here. *)
Definition extract_file_to (tar : list tarfile.TarInfo) (member_path : string)
    (fileobj : FileHandle) : M unit :=
  match List.find (fun m => String.eqb (tarfile.name m) member_path) tar with
  | Some m =>
      match tarfile.data m with
      | Some b => write fileobj b
      | None => raise (ExtractError member_path)
      end
  | None => raise (KeyError member_path)
  end.

(** ** class Geoip2DataBase *)

Record Geoip2DataBase := {
  edition_id : string;
  directory : string;
  license_key : string;
  _reader : option geoip2.Reader;
  _path : option string
}.

Definition set_reader (self : Geoip2DataBase) (r : geoip2.Reader) : Geoip2DataBase :=
  {| edition_id := edition_id self; directory := directory self;
     license_key := license_key self; _reader := Some r; _path := _path self |}.

(** [Geoip2DataBase(edition_id, directory, license_key)] *)
Definition __init__ (edition_id : string) (directory license_key : option string)
  : M Geoip2DataBase :=
  w <- get_world ;;
  let edition_id := default edition_id (DATABASE_ALIASES !! edition_id) in
  let directory := default GEOIP2_TOOLS_DIRECTORY (py_or directory (Some GEOIP2_TOOLS_DIRECTORY)) in
  let license_key := py_or license_key (environ w !! GEOIP2_MAXMIND_LICENSE_KEY_ENVNAME) in
  match license_key with
  | Some k =>
      ret {| edition_id := edition_id; directory := directory; license_key := k;
             _reader := None; _path := None |}
  | None => raise (AssertionError "A MaxMind license is required.")
  end.

(** [self.path] *)
Definition path (self : Geoip2DataBase) : string :=
  os.path.join (directory self) (edition_id self ++ ".mmdb").

(** [self.exists()] *)
Definition exists_ (self : Geoip2DataBase) : M bool :=
  os.path.lexists (path self).

(** [self.download_params()] *)
Definition download_params (self : Geoip2DataBase) : list (string * string) :=
  [("edition_id", edition_id self);
   ("license_key", license_key self);
   ("suffix", "tar.gz")].

(** The loop over [r.iter_content(chunk_size=DOWNLOAD_CHUNK_SIZE)] that
    fills the temporary file [t]; keep-alive chunks are empty.  The
    temporary file is private to the call: it is a buffer of its own,
    not a node of the world's file system. *)
Fixpoint write_chunks (chunks : list bytes) (t : bytes) : bytes :=
  match chunks with
  | [] => t
  | chunk :: rest =>
      write_chunks rest (match chunk with [] => t | _ => t ++ chunk end)
  end.

Definition fetch_to_tempfile (r : Response) : M bytes :=
  let t := write_chunks (iter_content r) [] in
  if stream_breaks r then raise RequestException else ret t.

(** The [with tempfile.NamedTemporaryFile(suffix='.tar.gz') as t] block:
    spool the response, open it as an archive and extract the database
    member into the locked handle [l]. *)
Definition install_from (r : Response) (l : FileHandle) : M unit :=
  t <- fetch_to_tempfile r ;;
  tar <- tarfile_open t ;;
  member_path <- (fun w => (next (List.filter (fun x => endswith x ".mmdb")
                                              (tarfile.getnames tar)), w)) ;;
  extract_file_to tar member_path l.

(** The rest of the locked block, past the early [return]. *)
Definition fetch_and_install (self : Geoip2DataBase) (l : FileHandle) : M unit :=
  r <- requests.get GEOIP2_DOWNLOAD_URL (download_params self) ;;
  (if truthy (Some (directory self)) then os.makedirs (directory self) else ret tt) ;;;
  install_from r l.

(** The body of the [with portalocker.Lock(...) as l] block. *)
Definition download_locked (self : Geoip2DataBase) (l : FileHandle) : M unit :=
  size <- os.path.getsize (path self) ;;
  if negb (Nat.eqb size 0) then ret tt
  else fetch_and_install self l.

(** [self.download()] *)
Definition download (self : Geoip2DataBase) : M unit :=
  portalocker.with_Lock (path self) "wb" (download_locked self).

(** [self.reader]; the second component is [self] after the access. *)
Definition reader (self : Geoip2DataBase) : M (geoip2.Reader * Geoip2DataBase) :=
  missing <- match _reader self with
             | None => b <- exists_ self ;; ret (negb b)
             | Some _ => ret false
             end ;;
  if (missing : bool)
  then raise (DatabaseNotExists
                ("Database " ++ edition_id self ++ " not exists in " ++ path self ++ "."))
  else match _reader self with
       | None => r <- Reader_init (path self) ;; ret (r, set_reader self r)
       | Some r => ret (r, self)
       end.

End Model.

(** ** Reading a trace *)

(** The writes among some actions, as (file name, data). *)
Definition writes_of (evs : list event) : list (string * bytes) :=
  omap (fun e => match e with EvWrite p b => Some (p, b) | _ => None end) evs.

(** The HTTP requests among some actions, as (url, params). *)
Definition requests_of (evs : list event) : list (string * list (string * string)) :=
  omap (fun e => match e with EvHttpGet u ps => Some (u, ps) | _ => None end) evs.

(** The directories [os.makedirs] was called for among some actions. *)
Definition makedirs_of (evs : list event) : list string :=
  omap (fun e => match e with EvMakedirs d => Some d | _ => None end) evs.

(** The actions that [w'] has seen since [w]. *)
Definition since (w w' : World) : list event :=
  drop (length (trace w)) (trace w').

(** The actions of a [download] that got the lock, up to the request. *)
Definition locked_prefix (self : Geoip2DataBase) : list event :=
  [EvOpen (path self) "ab"; EvLock (path self); EvTruncate (path self);
   EvStat (path self); EvHttpGet GEOIP2_DOWNLOAD_URL (download_params self)].

(** ** Sample configurations

    A toy instance of the external libraries and a few worlds, used to
    run the model on concrete inputs. *)

Definition city_mmdb : bytes := [x4d; x4d; x44; x42]%byte.
Definition old_mmdb : bytes := [x6f; x6c; x64]%byte.
Definition city_archive : bytes := [x1f; x8b; x01]%byte.
Definition readme_archive : bytes := [x1f; x8b; x02]%byte.
(** The body of an error response, not an archive. *)
Definition error_page : bytes := [x3c; x68; x31; x3e]%byte.

Definition sample_tar_members (t : bytes) : option (list tarfile.TarInfo) :=
  if bool_decide (t = city_archive) then
    Some [ {| tarfile.name := "GeoLite2-City_20200101"; tarfile.data := None |};
           {| tarfile.name := "GeoLite2-City_20200101/COPYRIGHT.txt";
              tarfile.data := Some [x63]%byte |};
           {| tarfile.name := "GeoLite2-City_20200101/GeoLite2-City.mmdb";
              tarfile.data := Some city_mmdb |} ]
  else if bool_decide (t = readme_archive) then
    Some [ {| tarfile.name := "README.txt"; tarfile.data := Some [x72]%byte |} ]
  else None.

Definition sample_externals : Externals := {|
  DEFAULT_GEOIP2_TOOLS_DIRECTORY := "/root/.config/geoip2-tools/";
  import_environ := ∅;
  tar_members := sample_tar_members;
  mmdb_valid := fun b => match b with [] => false | _ => true end
|}.

(** The remote end serves [body] in two chunks around a keep-alive. *)
Definition serve (body : bytes) : string -> list (string * string) -> option Response :=
  fun _ _ => Some {| iter_content := [take 2 body; []; drop 2 body];
                     stream_breaks := false |}.

(** [/data] exists and is empty. *)
Definition w_fresh (body : bytes) : World := {|
  fs := {[ ["data"] := Dir ]};
  cwd := [];
  environ := ∅;
  locked := ∅;
  net := serve body;
  trace := [];
  next_id := 0
|}.

(** [/data/GeoLite2-City.mmdb] is installed already. *)
Definition w_installed (body : bytes) : World :=
  set_fs (<[ ["GeoLite2-City.mmdb"; "data"] := File old_mmdb ]> (fs (w_fresh body)))
         (w_fresh body).

(** The license key is in the environment, but empty. *)
Definition w_empty_key : World := {|
  fs := ∅;
  cwd := [];
  environ := {[ GEOIP2_MAXMIND_LICENSE_KEY_ENVNAME := "" ]};
  locked := ∅;
  net := fun _ _ => None;
  trace := [];
  next_id := 0
|}.

Definition city_db : Geoip2DataBase := {|
  edition_id := "GeoLite2-City";
  directory := "/data";
  license_key := "secret";
  _reader := None;
  _path := None
|}.

(** An edition given as an absolute name, and a directory that is not
    there. *)
Definition stray_db : Geoip2DataBase := {|
  edition_id := "/data/GeoLite2-City";
  directory := "/missing";
  license_key := "secret";
  _reader := None;
  _path := None
|}.

(** The install directory is configured as the empty string
    ([GEOIP2_TOOLS_DIRECTORY=] in the environment at import). *)
Definition blank_directory_externals : Externals := {|
  DEFAULT_GEOIP2_TOOLS_DIRECTORY := "/root/.config/geoip2-tools/";
  import_environ := {[ "GEOIP2_TOOLS_DIRECTORY" := "" ]};
  tar_members := sample_tar_members;
  mmdb_valid := fun b => match b with [] => false | _ => true end
|}.

Definition cwd_db : Geoip2DataBase := {|
  edition_id := "GeoLite2-City";
  directory := "";
  license_key := "secret";
  _reader := None;
  _path := None
|}.

(** Nothing but the root directory. *)
Definition w_bare : World := {|
  fs := ∅;
  cwd := [];
  environ := ∅;
  locked := ∅;
  net := serve city_archive;
  trace := [];
  next_id := 0
|}.

(** [/data/GeoLite2-City.mmdb] is installed, and another process holds
    its lock. *)
Definition w_contended : World := {|
  fs := <[ ["GeoLite2-City.mmdb"; "data"] := File old_mmdb ]> {[ ["data"] := Dir ]};
  cwd := [];
  environ := ∅;
  locked := {[ ["GeoLite2-City.mmdb"; "data"] ]};
  net := serve city_archive;
  trace := [];
  next_id := 0
|}.

(** A remote end that cannot be reached. *)
Definition w_offline : World := {|
  fs := {[ ["data"] := Dir ]};
  cwd := [];
  environ := ∅;
  locked := ∅;
  net := fun _ _ => None;
  trace := [];
  next_id := 0
|}.

(** The remote end answers, and the connection breaks after the first
    chunk of the body. *)
Definition w_cut_off : World := {|
  fs := {[ ["data"] := Dir ]};
  cwd := [];
  environ := ∅;
  locked := ∅;
  net := fun _ _ => Some {| iter_content := [take 2 city_archive]; stream_breaks := true |};
  trace := [];
  next_id := 0
|}.

(** ** Properties *)

Section Properties.
Context {ext : Externals}.

(** *** Path resolution and the shape of the file system *)

Lemma is_dir_insert_file (f : gmap key node) (k k' : key) (c : bytes) :
  entry f k ≠ Some Dir →
  is_dir (<[k := File c]> f) k' = is_dir f k'.
Proof.
  intros Hk. unfold is_dir, entry in *.
  destruct k' as [|a k']; [done|].
  destruct (decide (k = a :: k')) as [->|Hne].
  - rewrite lookup_insert_eq. destruct (f !! (a :: k')) as [[|]|]; done.
  - by rewrite lookup_insert_ne.
Qed.

Lemma walk_ext (f f' : gmap key node) :
  (∀ k, is_dir f k = is_dir f' k) →
  ∀ comps cur, walk f cur comps = walk f' cur comps.
Proof.
  intros Hd. induction comps as [|c cs IH]; intros cur; [done|].
  simpl. unfold step. rewrite Hd. destruct (is_dir f' cur); [apply IH|done].
Qed.

Lemma walk_mono (f f' : gmap key node) :
  (∀ k, is_dir f k = true → is_dir f' k = true) →
  ∀ comps cur k, walk f cur comps = Some k → walk f' cur comps = Some k.
Proof.
  intros Hd. induction comps as [|c cs IH]; intros cur k; [done|].
  simpl. unfold step. destruct (is_dir f cur) eqn:E; [|done].
  rewrite (Hd _ E). apply IH.
Qed.

Lemma walk_app (f : gmap key node) (a b : list string) (cur : key) :
  walk f cur (a ++ b) =
  match walk f cur a with Some k => walk f k b | None => None end.
Proof.
  revert cur. induction a as [|c cs IH]; intros cur; [done|].
  simpl. destruct (step f cur c); [apply IH|done].
Qed.

Lemma resolve_ext (f f' : gmap key node) (d : key) (p : string) :
  (∀ k, is_dir f k = is_dir f' k) → resolve f d p = resolve f' d p.
Proof.
  intros Hd. unfold resolve. destruct (String.eqb p ""); [done|].
  by apply walk_ext.
Qed.

Lemma resolve_mono (f f' : gmap key node) (d : key) (p : string) (k : key) :
  (∀ k, is_dir f k = true → is_dir f' k = true) →
  resolve f d p = Some k → resolve f' d p = Some k.
Proof.
  intros Hd. unfold resolve. destruct (String.eqb p ""); [done|].
  by apply walk_mono.
Qed.

Lemma mkdirs_preserves (comps : list string) :
  ∀ (f f' : gmap key node) (cur : key),
    os.mkdirs f cur comps = Some f' →
    ∀ k n, entry f k = Some n → entry f' k = Some n.
Proof.
  induction comps as [|c cs IH]; intros f f' cur; simpl.
  - destruct (is_dir f cur); [|done]. by intros [= <-].
  - destruct (is_dir f cur); [|done].
    destruct (String.eqb c "" || String.eqb c "."); [apply IH|].
    destruct (String.eqb c ".."); [apply IH|].
    destruct (f !! (c :: cur)) eqn:E; [apply IH|].
    intros Hm k n Hk. eapply IH; [exact Hm|].
    unfold entry in *. destruct k as [|a k]; [done|].
    rewrite lookup_insert_ne; [done|]. intros Heq. congruence.
Qed.

Lemma lstat_insert_file (f : gmap key node) (d : key) (p : string) (k : key) (c : bytes) :
  resolve f d p = Some k →
  entry f k ≠ Some Dir →
  lstat (<[k := File c]> f) d p = Some (File c).
Proof.
  intros Hr Hnd. unfold lstat.
  erewrite resolve_ext; [rewrite Hr|].
  - unfold entry in *. destruct k; [done|apply lookup_insert_eq].
  - intros k'. by apply is_dir_insert_file.
Qed.

(** *** Lock acquisition *)

Lemma acquire_wb_inv (p : string) (w w1 : World) (fh : FileHandle) :
  portalocker.acquire (portalocker.Lock_init p "wb") w = (inr fh, w1) →
  ∃ k, resolve (fs w) (cwd w) p = Some k
       ∧ entry (fs w) k ≠ Some Dir
       ∧ (entry (fs w) k = None → is_dir (fs w) (tail k) = true)
       ∧ (k ∉ locked w)
       ∧ fh = {| fh_name := p; fh_key := k |}
       ∧ w1 = locked_world p k w.
Proof.
  unfold portalocker.acquire, portalocker.Lock_init, bind, open_, get_world,
    emit, truncate0, ret, raise, locked_world. simpl.
  destruct (resolve (fs w) (cwd w) p) as [k|] eqn:Hr; [|done].
  destruct (entry (fs w) k) as [[|c]|] eqn:He; simpl; [done| |].
  - case_bool_decide; simpl; [done|].
    assert (fs w !! k = Some (File c)) as Hl.
    { destruct k; [done|exact He]. }
    rewrite Hl. intros [= <- <-]. exists k. repeat split; try done; congruence.
  - destruct (is_dir (fs w) (tail k)) eqn:Hd; simpl; [|done].
    case_bool_decide; simpl; [done|].
    rewrite lookup_insert_eq. intros [= <- <-]. exists k.
    repeat split; try done; try congruence.
    unfold set_fs, log, logs; simpl. f_equal. apply insert_insert_eq.
Qed.

Lemma acquire_wb_ok (p : string) (k : key) (w : World) :
  resolve (fs w) (cwd w) p = Some k →
  entry (fs w) k ≠ Some Dir →
  (entry (fs w) k = None → is_dir (fs w) (tail k) = true) →
  k ∉ locked w →
  portalocker.acquire (portalocker.Lock_init p "wb") w
  = (inr {| fh_name := p; fh_key := k |}, locked_world p k w).
Proof.
  intros Hr Hnd Hpar Hlk.
  unfold portalocker.acquire, portalocker.Lock_init, bind, open_, get_world,
    emit, truncate0, ret, raise, locked_world. simpl.
  rewrite Hr. destruct (entry (fs w) k) as [[|c]|] eqn:He; simpl; [done| |].
  - rewrite bool_decide_eq_false_2 by done. simpl.
    assert (fs w !! k = Some (File c)) as Hl.
    { destruct k; [done|exact He]. }
    by rewrite Hl.
  - rewrite Hpar by done. simpl.
    rewrite bool_decide_eq_false_2 by done. simpl.
    rewrite lookup_insert_eq. unfold set_fs, log, logs; simpl.
    by rewrite insert_insert_eq.
Qed.

(** Once the lock is held the name still resolves to the same node, an
    empty regular file. *)
Lemma locked_world_lstat (p : string) (k : key) (w : World) :
  resolve (fs w) (cwd w) p = Some k →
  entry (fs w) k ≠ Some Dir →
  resolve (fs (locked_world p k w)) (cwd (locked_world p k w)) p = Some k
  ∧ fs (locked_world p k w) !! k = Some (File [])
  ∧ lstat (fs (locked_world p k w)) (cwd (locked_world p k w)) p = Some (File []).
Proof.
  intros Hr Hnd. simpl.
  assert (resolve (<[k:=File []]> (fs w)) (cwd w) p = Some k) as Hr'.
  { rewrite <- Hr. apply resolve_ext. intros k'. by apply is_dir_insert_file. }
  assert (k ≠ []) as Hk by (intros ->; by apply Hnd).
  split; [done|]. split; [apply lookup_insert_eq|].
  unfold lstat. rewrite Hr'. unfold entry. destruct k; [done|apply lookup_insert_eq].
Qed.

(** *** What survives in the file system *)

Lemma lstat_preserved (f f' : gmap key node) (d : key) (p : string) (n : node) :
  (∀ k n, entry f k = Some n → entry f' k = Some n) →
  lstat f d p = Some n → lstat f' d p = Some n.
Proof.
  intros Hp. unfold lstat.
  destruct (resolve f d p) as [k|] eqn:Hr; [|done].
  intros Hn. erewrite resolve_mono; [by apply Hp| |exact Hr].
  intros k'. unfold is_dir. destruct (entry f k') as [[|]|] eqn:E; try done.
  by rewrite (Hp _ _ E).
Qed.

Lemma getsize_file (p : string) (c : bytes) (w : World) :
  lstat (fs w) (cwd w) p = Some (File c) →
  os.path.getsize p w = (inr (length c), log (EvStat p) w).
Proof. intros H. unfold os.path.getsize. by rewrite H. Qed.

(** *** Members of the archive *)

(** The member that [extract_file_to] finds under the name picked by
    [next(filter(...))] is the first member whose name has the suffix. *)
Lemma find_by_first_name (tar : list tarfile.TarInfo) (suf n : string) :
  next (List.filter (fun x => endswith x suf) (tarfile.getnames tar)) = inr n →
  List.find (fun m => String.eqb (tarfile.name m) n) tar
  = List.find (fun m => endswith (tarfile.name m) suf) tar
  ∧ endswith n suf = true.
Proof.
  induction tar as [|m tar IH]; simpl; [done|].
  destruct (endswith (tarfile.name m) suf) eqn:E; simpl.
  - intros [= <-]. by rewrite String.eqb_refl.
  - intros Hn. destruct (IH Hn) as [IH1 IH2]. split; [|done].
    destruct (String.eqb (tarfile.name m) n) eqn:En; [|done].
    apply String.eqb_eq in En. congruence.
Qed.

(** *** The steps of [download] *)

Lemma set_fs_logs_nil (f : gmap key node) (w : World) :
  set_fs f (logs [] w) = set_fs f w.
Proof. unfold set_fs, logs; simpl. by rewrite app_nil_r. Qed.

Lemma entry_lookup (f : gmap key node) (k : key) :
  k ≠ [] → entry f k = f !! k.
Proof. by destruct k. Qed.

Lemma makedirs_inv (d : string) (w : World) :
  match os.makedirs d w with
  | (inr _, w2) =>
      ∃ f, (∀ k n, entry (fs w) k = Some n → entry f k = Some n)
           ∧ w2 = set_fs f (log (EvMakedirs d) w)
  | (inl _, w2) => w2 = log (EvMakedirs d) w
  end.
Proof.
  unfold os.makedirs. simpl. destruct (String.eqb d ""); [done|].
  destruct (os.mkdirs _ _ _) as [f|] eqn:Hm; [|done].
  exists f. split; [|done]. eapply mkdirs_preserves, Hm.
Qed.

(** [if self.directory: os.makedirs(self.directory, exist_ok=True)] *)
Lemma maybe_makedirs_inv (b : bool) (d : string) (w : World) :
  match (if b then os.makedirs d else ret tt) w with
  | (inr _, w2) =>
      ∃ f, (∀ k n, entry (fs w) k = Some n → entry f k = Some n)
           ∧ w2 = set_fs f (logs (if b then [EvMakedirs d] else []) w)
  | (inl _, w2) => b = true ∧ w2 = log (EvMakedirs d) w
  end.
Proof.
  destruct b.
  - pose proof (makedirs_inv d w) as H.
    destruct (os.makedirs d w) as [[e|u] w2]; [done|exact H].
  - unfold ret. exists (fs w). split; [done|].
    rewrite set_fs_logs_nil. by destruct w.
Qed.

Lemma write_file (l : FileHandle) (b c : bytes) (w : World) :
  fs w !! fh_key l = Some (File c) →
  write l b w
  = (inr tt, set_fs (<[fh_key l := File (c ++ b)]> (fs w)) (log (EvWrite (fh_name l) b) w)).
Proof. intros H. unfold write. simpl. by rewrite H. Qed.

Lemma install_from_inv (r : Response) (l : FileHandle) (w : World) :
  match install_from r l w with
  | (inr _, w') =>
      ∃ tar m b,
        stream_breaks r = false
        ∧ tar_members (write_chunks (iter_content r) []) = Some tar
        ∧ List.find (fun m => endswith (tarfile.name m) ".mmdb") tar = Some m
        ∧ tarfile.data m = Some b
        ∧ write l b w = (inr tt, w')
  | (inl _, w') => w' = w
  end.
Proof.
  unfold install_from, bind, fetch_to_tempfile, tarfile_open, ret, raise.
  destruct (stream_breaks r); [done|].
  destruct (tar_members _) as [tar|]; [|done].
  destruct (next _) as [e|n] eqn:Hn; [done|].
  destruct (find_by_first_name _ _ _ Hn) as [Hfind _].
  unfold extract_file_to, raise. rewrite Hfind. clear Hfind.
  destruct (List.find _ tar) as [m|] eqn:Hm; [|done].
  destruct (tarfile.data m) as [b|] eqn:Hb; [|done].
  destruct (write l b w) as [[e|[]] w'] eqn:Hw.
  - unfold write in Hw. by destruct (fs _ !! _) as [[|]|].
  - by exists tar, m, b.
Qed.

(** *** [download] as a whole *)

(** With the lock held the size check sees an empty file and [download]
    goes on to fetch. *)
Lemma download_unfold (self : Geoip2DataBase) (w : World) :
  download self w =
  match portalocker.acquire (portalocker.Lock_init (path self) "wb") w with
  | (inl e, w1) => (inl e, w1)
  | (inr fh, w1) =>
      let '(r, w2) := fetch_and_install self fh (log (EvStat (path self)) w1) in
      (r, log (EvUnlock (path self)) w2)
  end.
Proof.
  unfold download, portalocker.with_Lock, bind, finally.
  destruct (portalocker.acquire _ w) as [[e|fh] w1] eqn:Ha; [done|].
  apply acquire_wb_inv in Ha as (k & Hr & Hnd & Hpar & Hlk & -> & ->).
  destruct (locked_world_lstat _ _ _ Hr Hnd) as (Hr1 & Hk1 & Hl1).
  unfold download_locked, bind. by rewrite (getsize_file _ _ _ Hl1).
Qed.

Lemma download_ok_inv (self : Geoip2DataBase) (w w' : World) :
  download self w = (inr tt, w') →
  ∃ k r tar m b f,
    resolve (fs w) (cwd w) (path self) = Some k
    ∧ entry (fs w) k ≠ Some Dir
    ∧ net w GEOIP2_DOWNLOAD_URL (download_params self) = Some r
    ∧ stream_breaks r = false
    ∧ tar_members (write_chunks (iter_content r) []) = Some tar
    ∧ List.find (fun m => endswith (tarfile.name m) ".mmdb") tar = Some m
    ∧ tarfile.data m = Some b
    ∧ (∀ k' n, entry (<[k := File []]> (fs w)) k' = Some n → entry f k' = Some n)
    ∧ fs w' = <[k := File b]> f
    ∧ cwd w' = cwd w
    ∧ trace w' = (trace w
        ++ [EvOpen (path self) "ab"; EvLock (path self); EvTruncate (path self);
            EvStat (path self);
            EvHttpGet GEOIP2_DOWNLOAD_URL (download_params self)]
        ++ (if truthy (Some (directory self)) then [EvMakedirs (directory self)] else [])
        ++ [EvWrite (path self) b; EvUnlock (path self)])%list.
Proof.
  rewrite download_unfold.
  destruct (portalocker.acquire _ w) as [[e|fh] w1] eqn:Ha; [done|].
  apply acquire_wb_inv in Ha as (k & Hr & Hnd & Hpar & Hlk & -> & ->).
  assert (k ≠ []) as Hk by (intros ->; by apply Hnd).
  unfold fetch_and_install, bind, requests.get.
  cbn [net log logs locked_world set_fs].
  destruct (net w _ _) as [r|] eqn:Hnet; [|done].
  match goal with |- context [(if ?b then os.makedirs ?d else ret tt) ?w0] =>
    pose proof (maybe_makedirs_inv b d w0) as Hmk;
    destruct ((if b then os.makedirs d else ret tt) w0) as [[e|u] w3]
  end; [done|].
  destruct Hmk as (f & Hf & ->).
  match goal with |- context [install_from r ?l ?w0] =>
    pose proof (install_from_inv r l w0) as Hin;
    destruct (install_from r l w0) as [[e|u'] w4]
  end; [done|].
  destruct Hin as (tar & m & b & Hsb & Htar & Hm & Hb & Hw).
  rewrite (write_file _ _ []) in Hw.
  2:{ cbn [fs set_fs fh_key]. rewrite <- entry_lookup by done. apply Hf.
      cbn [fs logs]. rewrite entry_lookup by done. apply lookup_insert_eq. }
  injection Hw as <-. intros [= _ <-].
  exists k, r, tar, m, b, f. repeat split; try done.
  cbn. rewrite <- !app_assoc. done.
Qed.

Lemma acquire_wb_err (p : string) (w w1 : World) (e : exn) :
  portalocker.acquire (portalocker.Lock_init p "wb") w = (inl e, w1) →
  w1 = log (EvOpen p "ab") w
  ∨ ∃ k, resolve (fs w) (cwd w) p = Some k
         ∧ entry (fs w) k = None
         ∧ w1 = set_fs (<[k := File []]> (fs w)) (log (EvOpen p "ab") w).
Proof.
  unfold portalocker.acquire, portalocker.Lock_init, bind, open_, get_world,
    emit, truncate0, ret, raise. simpl.
  destruct (resolve (fs w) (cwd w) p) as [k|] eqn:Hr; [|intros [= _ <-]; by left].
  destruct (entry (fs w) k) as [[|c]|] eqn:He; simpl.
  - intros [= _ <-]; by left.
  - case_bool_decide; simpl; [intros [= _ <-]; by left|].
    by destruct (fs w !! k) as [[|]|].
  - destruct (is_dir (fs w) (tail k)); simpl; [|intros [= _ <-]; by left].
    case_bool_decide; simpl.
    + intros [= _ <-]. right. by exists k.
    + by rewrite lookup_insert_eq.
Qed.

Lemma first_name_of_find (tar : list tarfile.TarInfo) (suf : string) (m : tarfile.TarInfo) :
  List.find (fun m => endswith (tarfile.name m) suf) tar = Some m →
  next (List.filter (fun x => endswith x suf) (tarfile.getnames tar))
  = inr (tarfile.name m).
Proof.
  induction tar as [|m0 tar IH]; simpl; [done|].
  destruct (endswith (tarfile.name m0) suf); [by intros [= ->]|exact IH].
Qed.

(** [download] does return normally when nothing is in its way: the
    target can be opened and locked, the archive arrives whole and has
    a database member, and the directory can be made. *)
Lemma download_succeeds (self : Geoip2DataBase) (w : World) (k : key)
    (r : Response) (tar : list tarfile.TarInfo) (m : tarfile.TarInfo) (b : bytes) :
  resolve (fs w) (cwd w) (path self) = Some k →
  entry (fs w) k ≠ Some Dir →
  (entry (fs w) k = None → is_dir (fs w) (tail k) = true) →
  k ∉ locked w →
  net w GEOIP2_DOWNLOAD_URL (download_params self) = Some r →
  stream_breaks r = false →
  tar_members (write_chunks (iter_content r) []) = Some tar →
  List.find (fun m => endswith (tarfile.name m) ".mmdb") tar = Some m →
  tarfile.data m = Some b →
  (truthy (Some (directory self)) = true →
   is_Some (os.mkdirs (<[k := File []]> (fs w))
              (if startswith (directory self) "/" then [] else cwd w)
              (split (directory self)))) →
  ∃ w', download self w = (inr tt, w').
Proof.
  intros Hr Hnd Hpar Hlk Hnet Hsb Htar Hm Hb Hmk.
  assert (k ≠ []) as Hk by (intros ->; by apply Hnd).
  rewrite download_unfold, (acquire_wb_ok _ k) by done.
  unfold fetch_and_install, bind, requests.get.
  cbn [net log logs locked_world set_fs]. rewrite Hnet.
  match goal with |- context [(if ?c then os.makedirs ?d else ret tt) ?w0] =>
    assert (∃ f, (if c then os.makedirs d else ret tt) w0 = (inr tt, f)
                 ∧ fs f !! k = Some (File [])) as (w3 & -> & Hk3)
  end.
  { destruct (truthy (Some (directory self))) eqn:Ht.
    - destruct (Hmk eq_refl) as [f Hf]. unfold os.makedirs.
      cbn [fs cwd log logs locked_world set_fs] in *.
      destruct (String.eqb_spec (directory self) "") as [E|_].
      { rewrite E in Ht. done. }
      rewrite Hf. eexists. split; [done|]. cbn [fs set_fs].
      rewrite <- entry_lookup by done.
      eapply mkdirs_preserves; [exact Hf|].
      rewrite entry_lookup by done. apply lookup_insert_eq.
    - eexists. split; [done|]. apply lookup_insert_eq. }
  unfold install_from, bind, fetch_to_tempfile, tarfile_open, ret.
  rewrite Hsb, Htar, (first_name_of_find _ _ _ Hm).
  unfold extract_file_to.
  destruct (find_by_first_name tar ".mmdb" (tarfile.name m)) as [-> _].
  { by apply first_name_of_find. }
  rewrite Hm, Hb, (write_file _ _ []) by done. by eexists.
Qed.

(** C4: for every archive whose first member with a name ending in
    [.mmdb] has content [B], a successful [download] leaves exactly the
    bytes [B] in the file at [path]. *)
Theorem download_installs_member_content
    (self : Geoip2DataBase) (w w' : World) (r : Response)
    (tar : list tarfile.TarInfo) (m : tarfile.TarInfo) (B : bytes) :
  net w GEOIP2_DOWNLOAD_URL (download_params self) = Some r →
  tar_members (write_chunks (iter_content r) []) = Some tar →
  List.find (fun m => endswith (tarfile.name m) ".mmdb") tar = Some m →
  tarfile.data m = Some B →
  download self w = (inr tt, w') →
  lstat (fs w') (cwd w') (path self) = Some (File B).
Proof.
  intros Hnet Htar Hm HB Hd.
  apply download_ok_inv in Hd
    as (k & r' & tar' & m' & b & f & Hr & Hnd & Hnet' & _ & Htar' & Hm' & Hb & Hf & -> & -> & _).
  assert (b = B) as -> by congruence.
  assert (k ≠ []) as Hk by (intros ->; by apply Hnd).
  assert (entry f k = Some (File [])) as Hfk.
  { apply Hf. rewrite entry_lookup by done. apply lookup_insert_eq. }
  apply lstat_insert_file; [|congruence].
  apply (resolve_mono (<[k:=File []]> (fs w))).
  - intros k'. unfold is_dir.
    destruct (entry (<[k:=File []]> (fs w)) k') as [[|]|] eqn:E; try done.
    by rewrite (Hf _ _ E).
  - rewrite <- Hr. apply resolve_ext. intros k'. by apply is_dir_insert_file.
Qed.

Ltac no_write :=
  let H := fresh in
  intros ? ? H; cbn [app] in H;
  repeat (apply elem_of_cons in H as [H|H]; [discriminate H|]);
  by apply elem_of_nil in H.

(** X3: when the downloaded archive is readable and has no member whose
    name ends in [.mmdb], [download] fails with an error and none of its
    actions is a write.  If the lock was taken, the file at [path] was
    emptied then and is empty afterwards, whatever it held before the
    call; if not, the file is empty or the file system is as it was. *)
Theorem download_without_member_fails
    (self : Geoip2DataBase) (w : World) (r : Response) (tar : list tarfile.TarInfo) :
  net w GEOIP2_DOWNLOAD_URL (download_params self) = Some r →
  tar_members (write_chunks (iter_content r) []) = Some tar →
  Forall (fun m => endswith (tarfile.name m) ".mmdb" = false) tar →
  ∃ e w' evs,
    download self w = (inl e, w')
    ∧ trace w' = (trace w ++ evs)%list
    ∧ (∀ p b, EvWrite p b ∉ evs)
    ∧ (lstat (fs w') (cwd w') (path self) = Some (File []) ∨ fs w' = fs w)
    ∧ (lstat (fs w) (cwd w) (path self) = Some (File []) →
       lstat (fs w') (cwd w') (path self) = Some (File []))
    ∧ (∀ l w1,
         portalocker.acquire (portalocker.Lock_init (path self) "wb") w = (inr l, w1) →
         lstat (fs w1) (cwd w1) (path self) = Some (File [])
         ∧ lstat (fs w') (cwd w') (path self) = Some (File [])).
Proof.
  intros Hnet Htar Hno. rewrite download_unfold.
  destruct (portalocker.acquire _ w) as [[e|fh] w1] eqn:Ha.
  - exists e, w1, [EvOpen (path self) "ab"].
    apply acquire_wb_err in Ha as [->|(k & Hr & He & ->)].
    + split_and!; try done; [no_write | by right].
    + assert (lstat (<[k:=File []]> (fs w)) (cwd w) (path self) = Some (File [])) as Hl.
      { apply lstat_insert_file; [done|congruence]. }
      split_and!; try done; [no_write | by left].
  - apply acquire_wb_inv in Ha as (k & Hr & Hnd & Hpar & Hlk & -> & ->).
    pose proof (lstat_insert_file _ _ _ _ [] Hr Hnd) as Hl.
    unfold fetch_and_install, bind, requests.get.
    cbn [net log logs locked_world set_fs]. rewrite Hnet.
    match goal with |- context [(if ?b then os.makedirs ?d else ret tt) ?w0] =>
      pose proof (maybe_makedirs_inv b d w0) as Hmk;
      destruct ((if b then os.makedirs d else ret tt) w0) as [[e|u] w3]
    end.
    + destruct Hmk as [_ ->]. eexists _, _, _. split; [done|].
      cbn. rewrite <- !app_assoc.
      split_and!; try done; [no_write | by left | by intros ? ? [= _ <-]].
    + destruct Hmk as (f & Hf & ->).
      match goal with |- context [install_from r ?l ?w0] =>
        pose proof (install_from_inv r l w0) as Hin;
        destruct (install_from r l w0) as [[e|u'] w4]
      end.
      * subst w4.
        assert (lstat f (cwd w) (path self) = Some (File [])) as Hl'.
        { eapply lstat_preserved; [|exact Hl]. exact Hf. }
        destruct (truthy (Some (directory self)));
          (eexists _, _, _; split; [done|]);
          cbn; rewrite <- !app_assoc;
          (split_and!; try done; [no_write | by left | by intros ? ? [= _ <-]]).
      * destruct Hin as (tar' & m & b & _ & Htar' & Hm & _).
        assert (tar' = tar) as -> by congruence.
        apply find_some in Hm as [Hin Hsuf].
        rewrite Forall_forall in Hno. rewrite (Hno m) in Hsuf; [done|].
        by apply list_elem_of_In.
Qed.

(** *** The size check under the lock *)

(** The check of lines 56-57 on its own: with a target of non-zero size
    the locked block returns at once: no request, no write, only the
    [stat]. *)
Lemma download_locked_skips (self : Geoip2DataBase) (l : FileHandle) (w w1 : World) (n : nat) :
  os.path.getsize (path self) w = (inr n, w1) →
  n ≠ 0 →
  download_locked self l w = (inr tt, log (EvStat (path self)) w).
Proof.
  intros Hs Hn. unfold download_locked, bind. rewrite Hs.
  destruct n; [done|]. cbn. unfold ret. f_equal.
  unfold os.path.getsize in Hs.
  by destruct (lstat _ _ _) as [[|]|]; injection Hs as _ <-.
Qed.

(** Taking the lock in mode ['wb'] empties the target, whatever it held:
    every [download] that gets the lock goes on to the request. *)
Lemma download_ok_fetches (self : Geoip2DataBase) (w w' : World) :
  download self w = (inr tt, w') →
  ∃ evs, trace w' = (trace w ++ evs)%list
         ∧ EvTruncate (path self) ∈ evs
         ∧ EvHttpGet GEOIP2_DOWNLOAD_URL (download_params self) ∈ evs.
Proof.
  intros Hd. apply download_ok_inv in Hd
    as (k & r & tar & m & b & f & _ & _ & _ & _ & _ & _ & _ & _ & _ & _ & ->).
  eexists. split; [done|]. cbn [app]. split; repeat constructor.
Qed.


(** C6: the [reader] property raises [DatabaseNotExists] exactly when no
    reader is cached and nothing is at [path]; the message then names the
    edition and the path. *)
Theorem reader_not_exists_iff (self : Geoip2DataBase) (w : World) :
  ((∃ msg, fst (reader self w) = inl (DatabaseNotExists msg))
     ↔ _reader self = None ∧ lstat (fs w) (cwd w) (path self) = None)
  ∧ ∀ msg, fst (reader self w) = inl (DatabaseNotExists msg) →
           msg = "Database " ++ edition_id self ++ " not exists in " ++ path self ++ ".".
Proof.
  unfold reader, bind, exists_, os.path.lexists, Reader_init, ret, raise.
  destruct (_reader self) as [r|]; cbn.
  - split; [|done]. split; [by intros [? ?]|by intros [? _]].
  - destruct (lstat (fs w) (cwd w) (path self)) as [[|c]|] eqn:Hl; cbn; rewrite ?Hl; cbn.
    + split; [|done]. split; [by intros [? ?]|by intros [_ ?]].
    + destruct (mmdb_valid c); cbn;
        (split; [|done]); (split; [by intros [? ?]|by intros [_ ?]]).
    + split; [|by intros msg [= <-]]. split; [done|]. intros _. by eexists.
Qed.

(** C7: once [reader] has produced a reader, every later access returns
    that same object and touches nothing: the world is left exactly as
    it is found, whatever has happened to the file in between. *)
Theorem reader_is_cached (self self' : Geoip2DataBase) (w w' : World) (r : geoip2.Reader) :
  reader self w = (inr (r, self'), w') →
  ∀ w2 : World, reader self' w2 = (inr (r, self'), w2).
Proof.
  unfold reader, bind, exists_, os.path.lexists, Reader_init, ret, raise.
  destruct (_reader self) as [r0|] eqn:Hc; cbn.
  - intros [= <- <- _] w2. by rewrite Hc.
  - destruct (lstat (fs w) (cwd w) (path self)) as [[|c]|] eqn:Hl;
      cbn; rewrite ?Hl; cbn; try done.
    destruct (mmdb_valid c); cbn; [|done].
    by intros [= <- <- _] w2.
Qed.

(** *** Construction and the path *)

Lemma DATABASE_ALIASES_lookup (e c : string) :
  DATABASE_ALIASES !! e = Some c ↔
  (e = "asn" ∧ c = "GeoLite2-ASN")
  ∨ (e = "country" ∧ c = "GeoLite2-Country")
  ∨ (e = "city" ∧ c = "GeoLite2-City").
Proof.
  unfold DATABASE_ALIASES.
  rewrite !lookup_insert, lookup_empty.
  repeat case_decide; subst; split;
    try (intros [= <-]; tauto); try done;
    intros [[? ?]|[[? ?]|[? ?]]]; congruence.
Qed.

Lemma init_inv (e : string) (d k : option string) (w w' : World) (self : Geoip2DataBase) :
  __init__ e d k w = (inr self, w') →
  w' = w
  ∧ edition_id self = default e (DATABASE_ALIASES !! e)
  ∧ directory self = (if truthy d then default "" d else GEOIP2_TOOLS_DIRECTORY)
  ∧ Some (license_key self)
    = py_or k (environ w !! GEOIP2_MAXMIND_LICENSE_KEY_ENVNAME)
  ∧ _reader self = None.
Proof.
  unfold __init__, bind, get_world, ret, raise.
  destruct (py_or k _) as [key|]; [|done].
  intros [= <- <-]. cbn. split_and!; try done.
  unfold py_or. destruct d as [s|]; [|done].
  by destruct (truthy (Some s)).
Qed.

(** C3 (as amended): construction fails, with the assertion's message,
    exactly when the [license_key] argument is [None] or empty and the
    environment variable is not set; a variable that is set, even to
    the empty string, is a resolved credential. *)
Theorem init_fails_iff_no_credential (e : string) (d k : option string) (w : World) :
  (fst (__init__ e d k w) = inl (AssertionError "A MaxMind license is required.")
     ↔ truthy k = false ∧ environ w !! GEOIP2_MAXMIND_LICENSE_KEY_ENVNAME = None)
  ∧ (∀ x, fst (__init__ e d k w) = inl x →
          x = AssertionError "A MaxMind license is required.").
Proof.
  unfold __init__, bind, get_world, ret, raise, py_or.
  destruct (truthy k) eqn:Hk.
  - destruct k as [key|]; [|done]. cbn. split; [|done].
    split; [done|by intros [? _]].
  - destruct (environ w !! _) as [v|]; cbn.
    + split; [|done]. split; [done|by intros [_ ?]].
    + split; [done|by intros x [= <-]].
Qed.

Lemma append_cons (c : ascii) (a b : string) : String c a ++ b = String c (a ++ b).
Proof. done. Qed.

Lemma append_inj_l (p a b : string) : p ++ a = p ++ b → a = b.
Proof. induction p as [|c p IH]; [done|]. intros [= H]. by apply IH. Qed.

Lemma endswith_refl (s : string) : endswith s s = true.
Proof. destruct s; cbn [endswith]; by rewrite String.eqb_refl. Qed.

Lemma endswith_app (a b suf : string) :
  endswith b suf = true → endswith (a ++ b) suf = true.
Proof.
  intros H. induction a as [|x a IH]; [done|].
  rewrite append_cons. cbn [endswith]. rewrite IH. apply orb_true_r.
Qed.

Lemma startswith_sep_name (c x : string) :
  startswith x "/" = false → startswith (c ++ x) "/" = startswith c "/".
Proof. intros Hx. destruct c as [|a c]; [exact Hx|done]. Qed.

Lemma eqb_empty_false (d : string) : d ≠ "" → String.eqb d "" = false.
Proof. by destruct d. Qed.

(** C5: [path] is a function of the configuration alone and touches
    nothing: it is the directory joined, as [os.path.join] joins, with
    the canonical edition name and [.mmdb], that is the directory, a
    slash unless the directory is empty or ends with one, and the file
    name (the file name alone when the edition starts with a slash).
    For an alias of the table the file name is that of the provider's
    name, not of the alias. *)
Theorem path_of_configuration
    (e : string) (d k : option string) (w w' : World) (self : Geoip2DataBase) :
  __init__ e d k w = (inr self, w') →
  path self = os.path.join (directory self) (default e (DATABASE_ALIASES !! e) ++ ".mmdb")
  ∧ path self
    = (if startswith (default e (DATABASE_ALIASES !! e)) "/"
       then default e (DATABASE_ALIASES !! e) ++ ".mmdb"
       else if String.eqb (directory self) "" || endswith (directory self) "/"
            then directory self ++ default e (DATABASE_ALIASES !! e) ++ ".mmdb"
            else directory self ++ "/" ++ default e (DATABASE_ALIASES !! e) ++ ".mmdb")
  ∧ w' = w
  ∧ (∀ other, directory other = directory self → edition_id other = edition_id self →
              path other = path self)
  ∧ (∀ c, DATABASE_ALIASES !! e = Some c →
          c ≠ e
          ∧ path self
            = (if String.eqb (directory self) "" || endswith (directory self) "/"
               then directory self ++ c ++ ".mmdb"
               else directory self ++ "/" ++ c ++ ".mmdb")
          ∧ path self
            ≠ (if String.eqb (directory self) "" || endswith (directory self) "/"
               then directory self ++ e ++ ".mmdb"
               else directory self ++ "/" ++ e ++ ".mmdb")
          ∧ endswith (path self) (c ++ ".mmdb") = true)
  ∧ (directory self ≠ "" → endswith (directory self) "/" = false →
     (e = "asn" → path self = directory self ++ "/GeoLite2-ASN.mmdb")
     ∧ (e = "country" → path self = directory self ++ "/GeoLite2-Country.mmdb")
     ∧ (e = "city" → path self = directory self ++ "/GeoLite2-City.mmdb"))
  ∧ (directory self = "" ∨ endswith (directory self) "/" = true →
     (e = "asn" → path self = directory self ++ "GeoLite2-ASN.mmdb")
     ∧ (e = "country" → path self = directory self ++ "GeoLite2-Country.mmdb")
     ∧ (e = "city" → path self = directory self ++ "GeoLite2-City.mmdb")).
Proof.
  intros Hi. apply init_inv in Hi as (-> & He & _).
  unfold path. rewrite He. split_and!; try done.
  - unfold os.path.join, os.path.sep. by rewrite startswith_sep_name.
  - by intros other -> ->.
  - intros c Hc. rewrite Hc. change (default e (Some c)) with c.
    apply DATABASE_ALIASES_lookup in Hc.
    assert (startswith c "/" = false) as Hsc
      by (by destruct Hc as [[_ ->]|[[_ ->]|[_ ->]]]).
    unfold os.path.join, os.path.sep.
    rewrite startswith_sep_name by done. rewrite Hsc.
    split_and!.
    + by destruct Hc as [[-> ->]|[[-> ->]|[-> ->]]].
    + done.
    + destruct Hc as [[-> ->]|[[-> ->]|[-> ->]]];
        destruct (_ || _); intros H; by repeat apply append_inj_l in H.
    + destruct (_ || _); apply (endswith_app (directory self));
        [|apply (endswith_app "/")]; apply endswith_refl.
  - intros Hd Hs. unfold os.path.join, os.path.sep.
    rewrite (eqb_empty_false _ Hd), Hs.
    split_and!; by intros ->.
  - intros Hd. unfold os.path.join, os.path.sep.
    assert (String.eqb (directory self) "" || endswith (directory self) "/" = true) as ->.
    { destruct Hd as [-> | ->]; [done|apply orb_true_r]. }
    split_and!; by intros ->.
Qed.

Lemma startswith_sep_app (e x : string) :
  startswith x "/" = false → startswith e "/" = false →
  startswith (e ++ x) "/" = false.
Proof. destruct e as [|a e]; cbn [String.append startswith]; done. Qed.

(** C10 (as amended): an edition identifier that is not a key of the
    alias table is kept as it is: it is the canonical name, and [path]
    is [os.path.join] of the directory and the unmodified string with
    [.mmdb]: the directory, a slash and that name when the directory is
    not empty and does not end with a slash; the directory and that
    name when the directory is empty or ends with a slash; that name
    alone, the directory dropped, when the identifier starts with a
    slash.  The identifier is the [edition_id] parameter of the request
    that [download] sends. *)
Theorem unaliased_edition_verbatim
    (e : string) (d k : option string) (w w' : World) (self : Geoip2DataBase) :
  DATABASE_ALIASES !! e = None →
  __init__ e d k w = (inr self, w') →
  edition_id self = e
  ∧ path self = os.path.join (directory self) (e ++ ".mmdb")
  ∧ (startswith e "/" = false →
     directory self ≠ "" → endswith (directory self) "/" = false →
     path self = directory self ++ "/" ++ e ++ ".mmdb")
  ∧ (startswith e "/" = false →
     directory self = "" ∨ endswith (directory self) "/" = true →
     path self = directory self ++ e ++ ".mmdb")
  ∧ (startswith e "/" = true → path self = e ++ ".mmdb")
  ∧ download_params self
    = [("edition_id", e); ("license_key", license_key self); ("suffix", "tar.gz")]
  ∧ (∀ w1 w2, download self w1 = (inr tt, w2) →
       EvHttpGet GEOIP2_DOWNLOAD_URL
         [("edition_id", e); ("license_key", license_key self); ("suffix", "tar.gz")]
       ∈ trace w2).
Proof.
  intros Hno Hi. apply init_inv in Hi as (-> & He & _).
  rewrite Hno in He. cbn in He.
  unfold path, download_params. rewrite He. split_and!; try done.
  - intros Hn Hd Hs. unfold os.path.join, os.path.sep.
    rewrite startswith_sep_app by done. rewrite Hs.
    by destruct (directory self).
  - intros Hn Hd. unfold os.path.join, os.path.sep.
    rewrite startswith_sep_app by done.
    by destruct Hd as [-> | ->]; [|rewrite orb_true_r].
  - intros Hn. unfold os.path.join, os.path.sep.
    destruct e as [|c e]; [done|]. rewrite append_cons.
    cbn [startswith] in *. by rewrite Hn.
  - intros w1 w2 Hdl. apply download_ok_fetches in Hdl as (evs & -> & _ & Hg).
    unfold download_params in Hg. rewrite He in Hg.
    apply elem_of_app. by right.
Qed.

(** *** A directory that is not there *)

Lemma split_nonempty (s : string) : ∃ h t, split s = h :: t.
Proof.
  induction s as [|c s (h & t & IH)]; [by eexists _, _|].
  cbn [split]. destruct (Ascii.eqb c "/"); [by eexists _, _|].
  rewrite IH. by eexists _, _.
Qed.

Lemma split_app_sep (a b : string) :
  split (a ++ String "/" b) = (split a ++ split b)%list.
Proof.
  induction a as [|c a IH]; [done|].
  rewrite append_cons. cbn [split]. destruct (Ascii.eqb c "/").
  - by rewrite IH.
  - rewrite IH. by destruct (split_nonempty a) as (h & t & ->).
Qed.

Lemma endswith_sep_inv (d : string) :
  endswith d "/" = true → ∃ d', d = d' ++ "/".
Proof.
  induction d as [|c d IH]; [done|].
  cbn [endswith]. destruct (String.eqb_spec (String c d) "/") as [->|_].
  - intros _. by exists "".
  - cbn [orb]. intros H. destruct (IH H) as [d' ->]. by exists (String c d').
Qed.

Lemma split_app_nil_sep (a : string) : split (a ++ "/") = (split a ++ [""])%list.
Proof. apply (split_app_sep a ""). Qed.

Lemma startswith_app_l (d x : string) :
  d ≠ "" → startswith (d ++ x) "/" = startswith d "/".
Proof. by destruct d. Qed.

Lemma append_nonempty (d x : string) : d ≠ "" → String.eqb (d ++ x) "" = false.
Proof. by destruct d. Qed.

Lemma walk_not_dir (f : gmap key node) (k : key) (c : string) (cs : list string) :
  is_dir f k = false → walk f k (c :: cs) = None.
Proof. intros H. cbn. unfold step. by rewrite H. Qed.

Lemma string_app_assoc (a b c : string) : (a ++ b) ++ c = a ++ (b ++ c).
Proof. induction a as [|x a IH]; [done|]. by rewrite !append_cons, IH. Qed.

Lemma walk_below_missing (f : gmap key node) (start : key)
    (a suffix comps : list string) :
  suffix = [] ∨ suffix = [""] →
  comps ≠ [] →
  match walk f start (a ++ suffix) with
  | Some k => entry f k
  | None => None
  end ≠ Some Dir →
  walk f start (a ++ comps) = None.
Proof.
  intros Hs Hc. rewrite !walk_app.
  destruct (walk f start a) as [k|]; [|done].
  destruct comps as [|c cs]; [done|].
  destruct (is_dir f k) eqn:Hk; [|intros _; by apply walk_not_dir].
  intros H. exfalso. apply H. clear H.
  assert (entry f k = Some Dir) as He.
  { unfold is_dir in Hk. by destruct (entry f k) as [[|]|]. }
  destruct Hs as [->| ->]; [done|]. cbn. unfold step. by rewrite Hk.
Qed.

(** Below a directory that is not an existing directory nothing
    resolves. *)
Lemma resolve_below_missing (f : gmap key node) (cw : key) (d name : string) :
  d ≠ "" →
  startswith name "/" = false →
  lstat f cw d ≠ Some Dir →
  resolve f cw (os.path.join d name) = None.
Proof.
  intros Hd Hn Hl. unfold os.path.join, os.path.sep. rewrite Hn.
  destruct (String.eqb_spec d "") as [->|_]; [done|]. cbn [orb].
  destruct (split_nonempty name) as (h & t & Hsp).
  assert (∃ d0 suffix, (suffix = [] ∨ suffix = [""])
            ∧ (if endswith d "/" then d ++ name else d ++ "/" ++ name)
              = d0 ++ String "/" name
            ∧ split d = (split d0 ++ suffix)%list
            ∧ startswith (d0 ++ String "/" name) "/" = startswith d "/")
    as (d0 & suffix & Hs & -> & Hsd & Hst).
  { destruct (endswith d "/") eqn:He.
    - apply endswith_sep_inv in He as [d' ->]. exists d', [""].
      split_and!; [by right|by rewrite string_app_assoc|apply split_app_nil_sep|].
      by destruct d'.
    - exists d, []. split_and!; [by left|done|by rewrite app_nil_r|].
      by apply startswith_app_l. }
  unfold lstat, resolve in *.
  destruct (String.eqb_spec d "") as [->|_]; [done|].
  rewrite Hst, split_app_sep, Hsp.
  rewrite Hsd in Hl.
  destruct (String.eqb_spec (d0 ++ String "/" name) "") as [E|_].
  - by destruct d0.
  - by apply (walk_below_missing f _ (split d0) suffix).
Qed.

Lemma acquire_wb_unresolved (p : string) (w : World) :
  resolve (fs w) (cwd w) p = None →
  portalocker.acquire (portalocker.Lock_init p "wb") w
  = (inl (OSError p), log (EvOpen p "ab") w).
Proof.
  intros Hr.
  unfold portalocker.acquire, portalocker.Lock_init, bind, open_. simpl.
  by rewrite Hr.
Qed.

(** With the directory missing, opening the target fails before
    anything else happens. *)
Lemma download_missing_directory (self : Geoip2DataBase) (w : World) :
  directory self ≠ "" →
  startswith (edition_id self) "/" = false →
  lstat (fs w) (cwd w) (directory self) ≠ Some Dir →
  download self w = (inl (OSError (path self)), log (EvOpen (path self) "ab") w).
Proof.
  intros Hd He Hl.
  unfold download, portalocker.with_Lock, bind.
  rewrite acquire_wb_unresolved; [done|].
  apply resolve_below_missing; try done.
  by apply startswith_sep_app.
Qed.

(** C9 (as amended): when the configured directory is not empty and
    does not exist, and the edition does not start with a slash (so that
    [path] lies below the directory), [download] raises the I/O error of
    opening the target while taking the lock: the only action is that
    [open], and neither the request nor [os.makedirs] is reached. *)
Theorem download_fails_in_missing_directory (self : Geoip2DataBase) (w : World) :
  directory self ≠ "" →
  startswith (edition_id self) "/" = false →
  lstat (fs w) (cwd w) (directory self) = None →
  ∃ w', download self w = (inl (OSError (path self)), w')
        ∧ trace w' = (trace w ++ [EvOpen (path self) "ab"])%list
        ∧ fs w' = fs w
        ∧ EvMakedirs (directory self) ∉ drop (length (trace w)) (trace w').
Proof.
  intros Hd He Hl. eexists. split.
  - apply download_missing_directory; try done. by rewrite Hl.
  - cbn. split_and!; try done. rewrite drop_app_length.
    intros H. apply elem_of_cons in H as [H|H]; [done|]. by apply elem_of_nil in H.
Qed.

End Properties.

(** ** The properties on the sample configurations *)

(** C1: [download] over an installed, non-empty database.  Taking the
    lock in mode ['wb'] truncates the file, the size check then reads
    zero, and the archive is fetched and installed again. *)
Theorem download_refetches_installed_database :
  lstat (fs (w_installed city_archive)) (cwd (w_installed city_archive)) (path city_db)
  = Some (File old_mmdb)
  ∧ fst (@download sample_externals city_db (w_installed city_archive)) = inr tt
  ∧ trace (snd (@download sample_externals city_db (w_installed city_archive)))
    = [EvOpen "/data/GeoLite2-City.mmdb" "ab";
       EvLock "/data/GeoLite2-City.mmdb";
       EvTruncate "/data/GeoLite2-City.mmdb";
       EvStat "/data/GeoLite2-City.mmdb";
       EvHttpGet GEOIP2_DOWNLOAD_URL
         [("edition_id", "GeoLite2-City"); ("license_key", "secret"); ("suffix", "tar.gz")];
       EvMakedirs "/data";
       EvWrite "/data/GeoLite2-City.mmdb" city_mmdb;
       EvUnlock "/data/GeoLite2-City.mmdb"]
  ∧ lstat (fs (snd (@download sample_externals city_db (w_installed city_archive))))
          [] (path city_db)
    = Some (File city_mmdb).
Proof. by vm_compute. Qed.

(** C2: [download] over an installed database when the archive that
    comes back is readable and has no member ending in [.mmdb].  The
    call fails with the [StopIteration] of [next] and writes nothing,
    but the content of the file is not left unchanged: the database
    that was there is gone, truncated when the lock was taken in mode
    ['wb'] (the defect of C1), and the file is empty. *)
Theorem download_without_member_empties_installed_database :
  lstat (fs (w_installed readme_archive)) (cwd (w_installed readme_archive)) (path city_db)
  = Some (File old_mmdb)
  ∧ net (w_installed readme_archive) GEOIP2_DOWNLOAD_URL (download_params city_db)
    = Some {| iter_content := [take 2 readme_archive; []; drop 2 readme_archive];
              stream_breaks := false |}
  ∧ @tar_members sample_externals readme_archive
    = Some [ {| tarfile.name := "README.txt"; tarfile.data := Some [x72]%byte |} ]
  ∧ endswith "README.txt" ".mmdb" = false
  ∧ fst (@download sample_externals city_db (w_installed readme_archive)) = inl StopIteration
  ∧ trace (snd (@download sample_externals city_db (w_installed readme_archive)))
    = [EvOpen "/data/GeoLite2-City.mmdb" "ab";
       EvLock "/data/GeoLite2-City.mmdb";
       EvTruncate "/data/GeoLite2-City.mmdb";
       EvStat "/data/GeoLite2-City.mmdb";
       EvHttpGet GEOIP2_DOWNLOAD_URL
         [("edition_id", "GeoLite2-City"); ("license_key", "secret"); ("suffix", "tar.gz")];
       EvMakedirs "/data";
       EvUnlock "/data/GeoLite2-City.mmdb"]
  ∧ lstat (fs (snd (@download sample_externals city_db (w_installed readme_archive))))
          [] (path city_db)
    = Some (File [])
  ∧ old_mmdb ≠ [].
Proof. by vm_compute. Qed.

(** The archive without a database member, served to a fresh directory. *)
Lemma download_without_member_fails_witness :
  ∃ e w' evs,
    @download sample_externals city_db (w_fresh readme_archive) = (inl e, w')
    ∧ trace w' = (trace (w_fresh readme_archive) ++ evs)%list
    ∧ (∀ p b, EvWrite p b ∉ evs)
    ∧ (lstat (fs w') (cwd w') (path city_db) = Some (File [])
       ∨ fs w' = fs (w_fresh readme_archive))
    ∧ (lstat (fs (w_fresh readme_archive)) (cwd (w_fresh readme_archive)) (path city_db)
       = Some (File []) →
       lstat (fs w') (cwd w') (path city_db) = Some (File []))
    ∧ (∀ l w1,
         portalocker.acquire (portalocker.Lock_init (path city_db) "wb")
           (w_fresh readme_archive) = (inr l, w1) →
         lstat (fs w1) (cwd w1) (path city_db) = Some (File [])
         ∧ lstat (fs w') (cwd w') (path city_db) = Some (File [])).
Proof.
  apply (@download_without_member_fails sample_externals city_db
           (w_fresh readme_archive)
           {| iter_content := [take 2 readme_archive; []; drop 2 readme_archive];
              stream_breaks := false |}
           [ {| tarfile.name := "README.txt"; tarfile.data := Some [x72]%byte |} ]).
  - reflexivity.
  - reflexivity.
  - repeat constructor.
Defined.

(** There the error is the [StopIteration] of [next], and the target is
    left as the empty file that taking the lock created. *)
Example download_readme_archive_stops :
  fst (@download sample_externals city_db (w_fresh readme_archive)) = inl StopIteration
  ∧ lstat (fs (snd (@download sample_externals city_db (w_fresh readme_archive))))
          [] (path city_db)
    = Some (File []).
Proof. by vm_compute. Qed.

(** The sample archive installed into a fresh directory. *)
Lemma download_installs_member_content_witness :
  lstat (fs (snd (@download sample_externals city_db (w_fresh city_archive))))
        (cwd (snd (@download sample_externals city_db (w_fresh city_archive))))
        (path city_db)
  = Some (File city_mmdb).
Proof.
  apply (@download_installs_member_content sample_externals city_db
           (w_fresh city_archive) _
           {| iter_content := [take 2 city_archive; []; drop 2 city_archive];
              stream_breaks := false |}
           [ {| tarfile.name := "GeoLite2-City_20200101"; tarfile.data := None |};
             {| tarfile.name := "GeoLite2-City_20200101/COPYRIGHT.txt";
                tarfile.data := Some [x63]%byte |};
             {| tarfile.name := "GeoLite2-City_20200101/GeoLite2-City.mmdb";
                tarfile.data := Some city_mmdb |} ]
           {| tarfile.name := "GeoLite2-City_20200101/GeoLite2-City.mmdb";
              tarfile.data := Some city_mmdb |}
           city_mmdb).
  - reflexivity.
  - reflexivity.
  - reflexivity.
  - reflexivity.
  - by vm_compute.
Defined.

(** C3, the claim as stated fails: with the variable set to the empty
    string and no [license_key] argument, nothing supplies a non-empty
    credential, and yet the manager is constructed, with an empty key. *)
Lemma init_accepts_empty_environment_key :
  truthy None = false
  ∧ truthy (environ w_empty_key !! GEOIP2_MAXMIND_LICENSE_KEY_ENVNAME) = false
  ∧ ∃ self, fst (@__init__ sample_externals "city" (Some "/data") None w_empty_key)
            = inr self
            ∧ license_key self = "".
Proof. split_and!; [done|by vm_compute|]. eexists. by vm_compute. Qed.

Lemma init_fails_iff_no_credential_witness :
  fst (@__init__ sample_externals "city" (Some "/data") (Some "") w_bare)
  = inl (AssertionError "A MaxMind license is required.").
Proof.
  apply (proj1 (@init_fails_iff_no_credential sample_externals
                  "city" (Some "/data") (Some "") w_bare)).
  by vm_compute.
Defined.

(** The country alias under [/data], and the ASN alias under the
    default directory, which ends with a slash. *)
Lemma path_of_configuration_witness :
  path {| edition_id := "GeoLite2-Country"; directory := "/data";
          license_key := "secret"; _reader := None; _path := None |}
  = "/data/GeoLite2-Country.mmdb"
  ∧ path {| edition_id := "GeoLite2-ASN"; directory := "/root/.config/geoip2-tools/";
            license_key := "secret"; _reader := None; _path := None |}
    = "/root/.config/geoip2-tools/GeoLite2-ASN.mmdb".
Proof.
  split.
  - destruct (@path_of_configuration sample_externals
                "country" (Some "/data") (Some "secret") w_bare w_bare
                {| edition_id := "GeoLite2-Country"; directory := "/data";
                   license_key := "secret"; _reader := None; _path := None |}
                eq_refl) as (_ & _ & _ & _ & _ & H & _).
    apply H; [discriminate|reflexivity|reflexivity].
  - destruct (@path_of_configuration sample_externals
                "asn" None (Some "secret") w_bare w_bare
                {| edition_id := "GeoLite2-ASN"; directory := "/root/.config/geoip2-tools/";
                   license_key := "secret"; _reader := None; _path := None |}
                eq_refl) as (_ & _ & _ & _ & _ & _ & H).
    apply H; [right; reflexivity|reflexivity].
Defined.

(** An identifier outside the table, under [/data] and under the
    default directory. *)
Lemma unaliased_edition_verbatim_witness :
  path {| edition_id := "GeoIP2-Enterprise"; directory := "/data";
          license_key := "secret"; _reader := None; _path := None |}
  = "/data/GeoIP2-Enterprise.mmdb"
  ∧ path {| edition_id := "GeoIP2-Enterprise"; directory := "/root/.config/geoip2-tools/";
            license_key := "secret"; _reader := None; _path := None |}
    = "/root/.config/geoip2-tools/GeoIP2-Enterprise.mmdb".
Proof.
  split.
  - destruct (@unaliased_edition_verbatim sample_externals
                "GeoIP2-Enterprise" (Some "/data") (Some "secret") w_bare w_bare
                {| edition_id := "GeoIP2-Enterprise"; directory := "/data";
                   license_key := "secret"; _reader := None; _path := None |}
                eq_refl eq_refl) as (_ & _ & H & _).
    apply H; [reflexivity|discriminate|reflexivity].
  - destruct (@unaliased_edition_verbatim sample_externals
                "GeoIP2-Enterprise" None (Some "secret") w_bare w_bare
                {| edition_id := "GeoIP2-Enterprise";
                   directory := "/root/.config/geoip2-tools/";
                   license_key := "secret"; _reader := None; _path := None |}
                eq_refl eq_refl) as (_ & _ & _ & H & _).
    apply H; [reflexivity|right; reflexivity].
Defined.

(** C10, the claim as stated fails, in three ways.  An identifier that
    starts with a slash is not a key of the table and is kept verbatim,
    but [path] is then that name alone and not a file of the directory.
    Under the default directory, which ends with a slash, [path] is the
    directory followed by the file name, with no second slash.  Under
    an empty directory [path] is the file name alone, a file of the
    working directory and not of the root. *)
Lemma unaliased_path_not_directory_slash_name :
  (DATABASE_ALIASES !! "/data/GeoLite2-City" = None
   ∧ @__init__ sample_externals "/data/GeoLite2-City" (Some "/missing") (Some "secret")
       w_bare
     = (inr stray_db, w_bare)
   ∧ path stray_db = "/data/GeoLite2-City.mmdb"
   ∧ path stray_db ≠ directory stray_db ++ "/" ++ "/data/GeoLite2-City" ++ ".mmdb")
  ∧ (DATABASE_ALIASES !! "GeoIP2-Enterprise" = None
     ∧ ∃ self,
         @__init__ sample_externals "GeoIP2-Enterprise" None (Some "secret") w_bare
         = (inr self, w_bare)
         ∧ directory self = "/root/.config/geoip2-tools/"
         ∧ path self = "/root/.config/geoip2-tools/GeoIP2-Enterprise.mmdb"
         ∧ path self ≠ directory self ++ "/" ++ "GeoIP2-Enterprise" ++ ".mmdb")
  ∧ (∃ self,
       @__init__ blank_directory_externals "GeoIP2-Enterprise" None (Some "secret") w_bare
       = (inr self, w_bare)
       ∧ directory self = ""
       ∧ path self = "GeoIP2-Enterprise.mmdb"
       ∧ path self ≠ directory self ++ "/" ++ "GeoIP2-Enterprise" ++ ".mmdb").
Proof.
  split; [|split; [split|]].
  - split_and!; [by vm_compute..|]. vm_compute. discriminate.
  - by vm_compute.
  - eexists. split_and!; [by vm_compute..|]. vm_compute. discriminate.
  - eexists. split_and!; [by vm_compute..|]. vm_compute. discriminate.
Qed.


(** With nothing installed the accessor raises, naming edition and path. *)
Lemma reader_not_exists_iff_witness :
  ∃ msg, fst (@reader sample_externals city_db (w_fresh city_archive))
         = inl (DatabaseNotExists msg).
Proof.
  apply (proj1 (@reader_not_exists_iff sample_externals city_db (w_fresh city_archive))).
  split; reflexivity.
Defined.

(** The reader opened on the installed database is handed out again
    after the file is gone. *)
Lemma reader_is_cached_witness :
  @reader sample_externals
    (set_reader city_db {| geoip2.id := 0; geoip2.fileish := "/data/GeoLite2-City.mmdb";
                           geoip2.buffer := old_mmdb |})
    w_bare
  = (inr ({| geoip2.id := 0; geoip2.fileish := "/data/GeoLite2-City.mmdb";
             geoip2.buffer := old_mmdb |},
          set_reader city_db {| geoip2.id := 0; geoip2.fileish := "/data/GeoLite2-City.mmdb";
                                geoip2.buffer := old_mmdb |}),
     w_bare).
Proof.
  apply (@reader_is_cached sample_externals city_db _ (w_installed city_archive)
           (snd (@reader sample_externals city_db (w_installed city_archive)))).
  by vm_compute.
Defined.

(** [/data] is not there: opening the target fails and nothing else
    happens. *)
Lemma download_fails_in_missing_directory_witness :
  ∃ w', @download sample_externals city_db w_bare = (inl (OSError (path city_db)), w')
        ∧ trace w' = (trace w_bare ++ [EvOpen (path city_db) "ab"])%list
        ∧ fs w' = fs w_bare
        ∧ EvMakedirs (directory city_db) ∉ drop (length (trace w_bare)) (trace w').
Proof.
  apply (@download_fails_in_missing_directory sample_externals city_db w_bare).
  - discriminate.
  - reflexivity.
  - reflexivity.
Defined.

(** C9, the claim as stated fails, in two ways.  The directory
    [/missing] does not exist, but the edition is an absolute name:
    [path] does not lie below the directory, the lock is taken without
    error and [os.makedirs] runs, creating the directory (also when the
    server answers with an error page, and [download] fails later, on
    reading the archive).  And the empty directory name does not exist
    either, but then the target is opened in the working directory and
    [download] succeeds. *)
Lemma download_succeeds_with_missing_directory :
  (@__init__ sample_externals "/data/GeoLite2-City" (Some "/missing") (Some "secret")
     (w_fresh city_archive)
   = (inr stray_db, w_fresh city_archive)
   ∧ lstat (fs (w_fresh city_archive)) (cwd (w_fresh city_archive)) (directory stray_db)
     = None
   ∧ fst (@download sample_externals stray_db (w_fresh city_archive)) = inr tt
   ∧ trace (snd (@download sample_externals stray_db (w_fresh city_archive)))
     = [EvOpen "/data/GeoLite2-City.mmdb" "ab";
        EvLock "/data/GeoLite2-City.mmdb";
        EvTruncate "/data/GeoLite2-City.mmdb";
        EvStat "/data/GeoLite2-City.mmdb";
        EvHttpGet GEOIP2_DOWNLOAD_URL
          [("edition_id", "/data/GeoLite2-City"); ("license_key", "secret");
           ("suffix", "tar.gz")];
        EvMakedirs "/missing";
        EvWrite "/data/GeoLite2-City.mmdb" city_mmdb;
        EvUnlock "/data/GeoLite2-City.mmdb"]
   ∧ lstat (fs (snd (@download sample_externals stray_db (w_fresh city_archive))))
           [] "/missing"
     = Some Dir
   ∧ fst (@download sample_externals stray_db (w_fresh error_page)) = inl ReadError
   ∧ lstat (fs (snd (@download sample_externals stray_db (w_fresh error_page))))
           [] "/missing"
     = Some Dir)
  ∧ (@__init__ blank_directory_externals "city" None (Some "secret") (w_fresh city_archive)
     = (inr cwd_db, w_fresh city_archive)
     ∧ lstat (fs (w_fresh city_archive)) (cwd (w_fresh city_archive)) (directory cwd_db)
       = None
     ∧ fst (@download blank_directory_externals cwd_db (w_fresh city_archive)) = inr tt
     ∧ lstat (fs (snd (@download blank_directory_externals cwd_db (w_fresh city_archive))))
             [] "GeoLite2-City.mmdb"
       = Some (File city_mmdb)).
Proof. by vm_compute. Qed.

(** ** Further properties of the module *)

Section Coverage.
Context {ext : Externals}.

(** *** The temporary file *)

(** X1: the loop over the response writes the chunks in order and loses
    nothing by skipping the empty ones. *)
Theorem write_chunks_concat (chunks : list bytes) (t : bytes) :
  write_chunks chunks t = (t ++ concat chunks)%list.
Proof.
  revert t. induction chunks as [|c cs IH]; intros t; cbn [write_chunks concat].
  - by rewrite app_nil_r.
  - rewrite IH. destruct c as [|x c]; [done|]. by rewrite <- app_assoc.
Qed.

(** *** Every way out of [download] *)

(** [download] either fails to take the lock, having done nothing but
    open the target, or it takes it and then performs the request, at
    most one [os.makedirs], a write exactly when it succeeds, and the
    release. *)
Lemma download_outcome (self : Geoip2DataBase) (w : World) :
  (∃ e w', download self w = (inl e, w')
           ∧ portalocker.acquire (portalocker.Lock_init (path self) "wb") w = (inl e, w')
           ∧ trace w' = (trace w ++ [EvOpen (path self) "ab"])%list)
  ∨ (∃ k mk wr f res w',
       download self w = (res, w')
       ∧ resolve (fs w) (cwd w) (path self) = Some k
       ∧ entry (fs w) k ≠ Some Dir
       ∧ portalocker.acquire (portalocker.Lock_init (path self) "wb") w
         = (inr {| fh_name := path self; fh_key := k |}, locked_world (path self) k w)
       ∧ (mk = [] ∨ mk = [EvMakedirs (directory self)])
       ∧ (∀ k' n, entry (<[k := File []]> (fs w)) k' = Some n → entry f k' = Some n)
       ∧ cwd w' = cwd w
       ∧ trace w' = (trace w ++ locked_prefix self ++ mk ++ wr ++ [EvUnlock (path self)])%list
       ∧ ((∃ e, res = inl e ∧ wr = [] ∧ fs w' = f)
          ∨ (∃ b, res = inr tt ∧ wr = [EvWrite (path self) b]
                  ∧ fs w' = <[k := File b]> f))).
Proof.
  rewrite download_unfold.
  destruct (portalocker.acquire _ w) as [[e|fh] w1] eqn:Ha.
  - left. exists e, w1. split_and!; try done.
    by apply acquire_wb_err in Ha as [->|(k & _ & _ & ->)].
  - right. pose proof Ha as Ha'.
    apply acquire_wb_inv in Ha as (k & Hr & Hnd & Hpar & Hlk & -> & ->).
    assert (k ≠ []) as Hk by (intros ->; by apply Hnd).
    unfold fetch_and_install, bind, requests.get, locked_prefix.
    cbn [net log logs locked_world set_fs].
    destruct (net w _ _) as [r|] eqn:Hnet.
    2:{ exists k, [], [], (<[k:=File []]> (fs w)). eexists _, _.
        split_and!; try done; [by left| |left; by eexists].
        cbn. by rewrite <- !app_assoc. }
    match goal with |- context [(if ?b then os.makedirs ?d else ret tt) ?w0] =>
      pose proof (maybe_makedirs_inv b d w0) as Hmk;
      destruct ((if b then os.makedirs d else ret tt) w0) as [[e|u] w3]
    end.
    + destruct Hmk as [_ ->].
      exists k, [EvMakedirs (directory self)], [], (<[k:=File []]> (fs w)). eexists _, _.
      split_and!; try done; [by right| |left; by eexists].
      cbn. by rewrite <- !app_assoc.
    + destruct Hmk as (f & Hf & ->).
      match goal with |- context [install_from r ?l ?w0] =>
        pose proof (install_from_inv r l w0) as Hin;
        destruct (install_from r l w0) as [[e|u'] w4]
      end.
      * subst w4.
        exists k, (if truthy (Some (directory self)) then [EvMakedirs (directory self)] else []),
          [], f. eexists _, _.
        split_and!; try done; [by destruct (truthy _); [right|left]| |left; by eexists].
        cbn. by rewrite <- !app_assoc.
      * destruct Hin as (tar & m & b & _ & _ & _ & _ & Hw).
        rewrite (write_file _ _ []) in Hw.
        2:{ cbn [fs set_fs fh_key]. rewrite <- entry_lookup by done. apply Hf.
            cbn [fs logs]. rewrite entry_lookup by done. apply lookup_insert_eq. }
        injection Hw as <-. destruct u'.
        exists k, (if truthy (Some (directory self)) then [EvMakedirs (directory self)] else []),
          [EvWrite (path self) b], f. eexists _, _.
        split_and!; try done; [by destruct (truthy _); [right|left]| |right; by eexists].
        cbn. by rewrite <- !app_assoc.
Qed.


Lemma since_app (w w' : World) (evs : list event) :
  trace w' = (trace w ++ evs)%list → since w w' = evs.
Proof. intros H. unfold since. by rewrite H, drop_app_length. Qed.

(** Where the target is once [download] has held the lock: the file
    resolved when the lock was taken, empty until the one write. *)
Lemma lstat_after_lock (f0 f : gmap key node) (cw : key) (p : string) (k : key) (b : bytes) :
  resolve f0 cw p = Some k →
  entry f0 k ≠ Some Dir →
  (∀ k' n, entry (<[k := File []]> f0) k' = Some n → entry f k' = Some n) →
  lstat f cw p = Some (File []) ∧ lstat (<[k := File b]> f) cw p = Some (File b).
Proof.
  intros Hr Hnd Hf.
  assert (lstat f cw p = Some (File [])) as Hl.
  { eapply lstat_preserved; [exact Hf|]. by apply lstat_insert_file. }
  split; [done|].
  assert (k ≠ []) as Hk by (intros ->; by apply Hnd).
  assert (entry f k = Some (File [])) as Hfk.
  { apply Hf. rewrite entry_lookup by done. apply lookup_insert_eq. }
  apply lstat_insert_file; [|congruence].
  apply (resolve_mono (<[k:=File []]> f0)).
  - intros k'. unfold is_dir.
    destruct (entry (<[k:=File []]> f0) k') as [[|]|] eqn:E; try done.
    by rewrite (Hf _ _ E).
  - rewrite <- Hr. apply resolve_ext. intros k'. by apply is_dir_insert_file.
Qed.

(** X2: [download] releases the lock exactly when it has taken it, on
    every way out, and the release is the last thing it does. *)
Theorem download_releases_lock (self : Geoip2DataBase) (w : World) :
  EvLock (path self) ∈ since w (snd (download self w))
  ↔ last (since w (snd (download self w))) = Some (EvUnlock (path self)).
Proof.
  destruct (download_outcome self w)
    as [(e & w' & -> & _ & Ht)
       |(k & mk & wr & f & res & w' & -> & _ & _ & _ & _ & _ & _ & Ht & _)];
    cbn [snd]; rewrite (since_app _ _ _ Ht).
  - split; [|done]. intros H. apply elem_of_cons in H as [H|H]; [done|].
    by apply elem_of_nil in H.
  - split; intros _.
    + unfold locked_prefix. by rewrite !app_assoc, last_snoc.
    + unfold locked_prefix. apply elem_of_app. left. by repeat constructor.
Qed.

(** X4: [download] sends at most one request, to the download URL with
    [download_params], and only while it holds the lock: none when the
    lock could not be taken, exactly one when it could. *)
Theorem download_single_request (self : Geoip2DataBase) (w : World) :
  match portalocker.acquire (portalocker.Lock_init (path self) "wb") w with
  | (inr _, _) =>
      requests_of (since w (snd (download self w)))
      = [(GEOIP2_DOWNLOAD_URL, download_params self)]
  | (inl _, _) => requests_of (since w (snd (download self w))) = []
  end.
Proof.
  destruct (download_outcome self w)
    as [(e & w' & -> & -> & Ht)
       |(k & mk & wr & f & res & w' & -> & _ & _ & -> & Hmk & _ & _ & Ht & Hres)];
    cbn [snd]; rewrite (since_app _ _ _ Ht); [done|].
  destruct Hmk as [-> | ->];
    by destruct Hres as [(e & _ & -> & _)|(b & _ & -> & _)].
Qed.

(** *** The ways [download] fails *)

(** X5: when the request cannot be made, [download] raises
    [RequestException] right after it: the lock is released,
    [os.makedirs] is not reached, and the target stays the empty file
    that taking the lock left. *)
Theorem download_transport_failure
    (self : Geoip2DataBase) (w w1 : World) (l : FileHandle) :
  portalocker.acquire (portalocker.Lock_init (path self) "wb") w = (inr l, w1) →
  net w GEOIP2_DOWNLOAD_URL (download_params self) = None →
  download self w
  = (inl RequestException,
     log (EvUnlock (path self))
       (log (EvHttpGet GEOIP2_DOWNLOAD_URL (download_params self))
          (log (EvStat (path self)) w1)))
  ∧ since w (snd (download self w)) = (locked_prefix self ++ [EvUnlock (path self)])%list
  ∧ lstat (fs (snd (download self w))) (cwd (snd (download self w))) (path self)
    = Some (File []).
Proof.
  intros Ha Hnet. rewrite download_unfold, Ha.
  apply acquire_wb_inv in Ha as (k & Hr & Hnd & _ & _ & -> & ->).
  unfold fetch_and_install, bind, requests.get.
  cbn [net log logs locked_world set_fs]. rewrite Hnet. cbn [snd].
  split_and!; [done| |].
  - apply since_app. cbn. by rewrite <- !app_assoc.
  - cbn. by apply lstat_insert_file.
Qed.

(** X6: while another process holds the lock on an installed file,
    [download] raises [LockException] having only opened the file: its
    content is as it was, and no request is sent. *)
Theorem download_lock_contended
    (self : Geoip2DataBase) (w : World) (k : key) (c : bytes) :
  resolve (fs w) (cwd w) (path self) = Some k →
  entry (fs w) k = Some (File c) →
  k ∈ locked w →
  download self w
  = (inl (LockException (path self)), log (EvOpen (path self) "ab") w).
Proof.
  intros Hr He Hlk.
  unfold download, portalocker.with_Lock, portalocker.acquire,
    portalocker.Lock_init, bind, open_, get_world, raise. simpl.
  rewrite Hr, He. simpl. by rewrite bool_decide_eq_true_2.
Qed.

(** X7: [download] removes nothing and touches no file but its target:
    every entry of the file system is still there afterwards,
    unchanged unless it is the regular file that [path] resolves to. *)
Theorem download_keeps_other_entries
    (self : Geoip2DataBase) (w : World) (k' : key) (n : node) :
  entry (fs w) k' = Some n →
  entry (fs (snd (download self w))) k' = Some n
  ∨ (resolve (fs w) (cwd w) (path self) = Some k'
     ∧ ∃ c c', n = File c ∧ entry (fs (snd (download self w))) k' = Some (File c')).
Proof.
  intros Hn.
  destruct (download_outcome self w)
    as [(e & w' & -> & Ha & _)
       |(k & mk & wr & f & res & w' & -> & Hr & Hnd & _ & _ & Hf & _ & _ & Hres)];
    cbn [snd].
  - left. apply acquire_wb_err in Ha as [->|(k & _ & He & ->)]; [done|].
    cbn [fs set_fs log logs]. destruct k' as [|a k']; [done|].
    cbn [entry] in *. rewrite lookup_insert_ne; [done|].
    intros ->. cbn [entry] in He. congruence.
  - assert (k ≠ []) as Hk by (intros ->; by apply Hnd).
    destruct (decide (k' = k)) as [->|Hne].
    + right. split; [done|].
      destruct n as [|c]; [done|]. exists c.
      assert (entry f k = Some (File [])) as Hfk.
      { apply Hf. rewrite entry_lookup by done. apply lookup_insert_eq. }
      destruct Hres as [(e & _ & _ & ->)|(b & _ & _ & ->)]; eexists; split; try done.
      rewrite entry_lookup by done. apply lookup_insert_eq.
    + left.
      assert (entry f k' = Some n) as Hfk'.
      { apply Hf. destruct k' as [|a k']; [done|].
        cbn [entry] in *. by rewrite lookup_insert_ne. }
      destruct Hres as [(e & _ & _ & ->)|(b & _ & _ & ->)]; [done|].
      destruct k' as [|a k']; [done|]. cbn [entry] in *.
      by rewrite lookup_insert_ne.
Qed.

(** *** After [download] *)

Lemma locked_download_lstat
    (self : Geoip2DataBase) (w w1 : World) (l : FileHandle) :
  portalocker.acquire (portalocker.Lock_init (path self) "wb") w = (inr l, w1) →
  ∃ c, lstat (fs (snd (download self w))) (cwd (snd (download self w))) (path self)
       = Some (File c)
       ∧ (∀ e, fst (download self w) = inl e → c = []).
Proof.
  intros Ha.
  destruct (download_outcome self w)
    as [(e & w' & _ & Ha' & _)
       |(k & mk & wr & f & res & w' & -> & Hr & Hnd & _ & _ & Hf & Hc & _ & Hres)];
    [congruence|]. cbn [fst snd].
  destruct (lstat_after_lock (fs w) f (cwd w) (path self) k [] Hr Hnd Hf) as [Hl0 _].
  destruct Hres as [(e & -> & _ & ->)|(b & -> & _ & ->)]; rewrite Hc.
  - by exists [].
  - exists b. split; [|done]. by apply (lstat_after_lock (fs w)).
Qed.

(** X9: once [download] has taken the lock, whatever comes of it, a
    normal return or any error, something is at [path] afterwards:
    [exists] is true. *)
Theorem exists_after_locked_download
    (self : Geoip2DataBase) (w w1 : World) (l : FileHandle) :
  portalocker.acquire (portalocker.Lock_init (path self) "wb") w = (inr l, w1) →
  fst (exists_ self (snd (download self w))) = inr true.
Proof.
  intros Ha.
  destruct (locked_download_lstat self w w1 l Ha) as (c & Hl & _).
  unfold exists_, os.path.lexists. by rewrite Hl.
Qed.

(** X10: after a successful [download], a first access to [reader]
    opens the installed file: it never raises [DatabaseNotExists]; it
    gives a reader over the installed bytes and caches it when the
    library takes them for a database, and [InvalidDatabaseError] when
    it does not. *)
Theorem reader_after_download (self : Geoip2DataBase) (w w' : World) :
  download self w = (inr tt, w') →
  _reader self = None →
  ∃ b, lstat (fs w') (cwd w') (path self) = Some (File b)
       ∧ if mmdb_valid b
         then ∃ r, fst (reader self w') = inr (r, set_reader self r)
                   ∧ geoip2.buffer r = b
                   ∧ geoip2.fileish r = path self
         else fst (reader self w') = inl (InvalidDatabaseError (path self)).
Proof.
  intros Hd Hc.
  assert (∃ b, lstat (fs w') (cwd w') (path self) = Some (File b)) as [b Hl].
  { destruct (download_outcome self w)
      as [(e & w0 & He & _)
         |(k & mk & wr & f & res & w0 & He & Hr & Hnd & _ & _ & Hf & Hcw & _ & Hres)];
      [congruence|].
    rewrite Hd in He. injection He as <- <-.
    destruct Hres as [(e & ? & _)|(b & _ & _ & ->)]; [done|].
    exists b. rewrite Hcw. by apply (lstat_after_lock (fs w)). }
  exists b. split; [done|].
  unfold reader, bind, exists_, os.path.lexists, Reader_init, ret, raise.
  rewrite Hc. cbn. rewrite !Hl. cbn. rewrite Hl.
  destruct (mmdb_valid b); [|done]. by eexists.
Qed.

(** X11: after a [download] that took the lock and failed before
    anything was written, the file at [path] is the empty file that
    taking the lock left, and a first access to [reader] raises the
    library's [InvalidDatabaseError] (an empty file is no database),
    not [DatabaseNotExists]. *)
Theorem reader_after_failed_download
    (self : Geoip2DataBase) (w w1 w' : World) (l : FileHandle) (e : exn) :
  mmdb_valid [] = false →
  portalocker.acquire (portalocker.Lock_init (path self) "wb") w = (inr l, w1) →
  download self w = (inl e, w') →
  writes_of (since w w') = [] →
  _reader self = None →
  lstat (fs w') (cwd w') (path self) = Some (File [])
  ∧ fst (reader self w') = inl (InvalidDatabaseError (path self)).
Proof.
  intros Hv Ha Hd _ Hc.
  destruct (locked_download_lstat self w w1 l Ha) as (c & Hl & Hc0).
  rewrite Hd in Hl, Hc0. rewrite (Hc0 e eq_refl) in Hl. cbn [snd] in Hl.
  split; [done|].
  unfold reader, bind, exists_, os.path.lexists, Reader_init, ret, raise.
  rewrite Hc. cbn. rewrite !Hl. cbn. by rewrite Hl, Hv.
Qed.

(** *** Names *)

(** X12: an alias and the name it stands for are interchangeable: the
    constructor gives the same manager for either, since no canonical
    name is itself an alias. *)
Theorem alias_same_manager (e c : string) (d k : option string) (w : World) :
  DATABASE_ALIASES !! e = Some c →
  DATABASE_ALIASES !! c = None
  ∧ __init__ e d k w = __init__ c d k w.
Proof.
  intros He.
  assert (DATABASE_ALIASES !! c = None) as Hc.
  { apply DATABASE_ALIASES_lookup in He as [[_ ->]|[[_ ->]|[_ ->]]]; by vm_compute. }
  split; [done|]. unfold __init__, bind, get_world. cbn. by rewrite He, Hc.
Qed.

(** X13: whatever the configuration, [path] ends in [.mmdb]; in
    particular it is never the empty name and never the directory. *)
Theorem path_endswith_mmdb (self : Geoip2DataBase) :
  endswith (path self) ".mmdb" = true ∧ path self ≠ "".
Proof.
  assert (endswith (path self) ".mmdb" = true) as H.
  { unfold path, os.path.join.
    destruct (startswith _ _); [|destruct (_ || _)];
      repeat apply endswith_app; apply endswith_refl. }
  split; [done|]. intros E. by rewrite E in H.
Qed.

(** *** The directory and the archive *)


(** X14: [os.makedirs] is called at most once, with the configured
    directory, and only under the lock after the request has returned a
    response; never for an empty directory name. *)
Theorem download_makedirs_once (self : Geoip2DataBase) (w : World) :
  makedirs_of (since w (snd (download self w)))
  = match portalocker.acquire (portalocker.Lock_init (path self) "wb") w,
          net w GEOIP2_DOWNLOAD_URL (download_params self) with
    | (inr _, _), Some _ =>
        if String.eqb (directory self) "" then [] else [directory self]
    | _, _ => []
    end.
Proof.
  rewrite download_unfold.
  destruct (portalocker.acquire _ w) as [[e|fh] w1] eqn:Ha.
  - cbn [snd]. apply acquire_wb_err in Ha as [->|(k & _ & _ & ->)];
      unfold since; cbn; by rewrite drop_app_length.
  - apply acquire_wb_inv in Ha as (k & Hr & Hnd & Hpar & Hlk & -> & ->).
    unfold fetch_and_install, bind, requests.get.
    cbn [net log logs locked_world set_fs].
    destruct (net w _ _) as [r|] eqn:Hnet.
    2:{ unfold since. cbn. rewrite <- !app_assoc. by rewrite drop_app_length. }
    match goal with |- context [(if ?b then os.makedirs ?d else ret tt) ?w0] =>
      pose proof (maybe_makedirs_inv b d w0) as Hmk;
      destruct ((if b then os.makedirs d else ret tt) w0) as [[e|u] w3]
    end.
    + destruct Hmk as [Ht ->]. unfold truthy in Ht.
      destruct (String.eqb (directory self) ""); [done|].
      unfold since. cbn. rewrite <- !app_assoc. by rewrite drop_app_length.
    + destruct Hmk as (f & Hf & ->).
      assert (∃ tl w4, install_from r {| fh_name := path self; fh_key := k |}
                (set_fs f
                   (logs (if truthy (Some (directory self))
                          then [EvMakedirs (directory self)] else [])
                      (logs [EvHttpGet GEOIP2_DOWNLOAD_URL (download_params self)]
                         (logs [EvStat (path self)] (locked_world (path self) k w)))))
                = (tl, w4)
              ∧ ∃ wr, makedirs_of wr = []
                      ∧ trace w4 = (trace w ++ locked_prefix self
                           ++ (if truthy (Some (directory self))
                               then [EvMakedirs (directory self)] else []) ++ wr)%list)
        as (tl & w4 & Hi & wr & Hwr & Ht).
      { match goal with |- context [install_from r ?l ?w0] =>
          pose proof (install_from_inv r l w0) as Hin;
          destruct (install_from r l w0) as [[e|u'] w4]
        end.
        - subst w4. eexists _, _. split; [done|]. exists []. split; [done|].
          cbn. by rewrite <- !app_assoc, app_nil_r.
        - destruct Hin as (tar & m & b & _ & _ & _ & _ & Hw).
          unfold write in Hw. cbn [fs set_fs logs log fh_key fh_name] in Hw.
          eexists _, _. split; [done|]. exists [EvWrite (path self) b]. split; [done|].
          destruct (f !! k) as [[|c]|]; injection Hw as <-; cbn;
            by rewrite <- !app_assoc. }
      unfold log, locked_world in *. cbn [logs set_fs] in *.
      rewrite Hi. cbn [snd]. unfold since. cbn [trace logs]. rewrite Ht.
      rewrite <- !app_assoc, drop_app_length. unfold truthy, locked_prefix.
      destruct (String.eqb (directory self) ""); cbn;
        unfold makedirs_of in *; rewrite ?omap_app, ?Hwr; cbn; by rewrite ?Hwr.
Qed.


End Coverage.

(** *** On the sample configurations *)

Lemma download_transport_failure_witness :
  @download sample_externals city_db w_offline
  = (inl RequestException,
     log (EvUnlock (path city_db))
       (log (EvHttpGet GEOIP2_DOWNLOAD_URL (download_params city_db))
          (log (EvStat (path city_db)) (locked_world (path city_db)
                                          ["GeoLite2-City.mmdb"; "data"] w_offline))))
  ∧ since w_offline (snd (@download sample_externals city_db w_offline))
    = (locked_prefix city_db ++ [EvUnlock (path city_db)])%list
  ∧ lstat (fs (snd (@download sample_externals city_db w_offline)))
          (cwd (snd (@download sample_externals city_db w_offline))) (path city_db)
    = Some (File []).
Proof.
  apply (@download_transport_failure sample_externals city_db w_offline _
           {| fh_name := path city_db; fh_key := ["GeoLite2-City.mmdb"; "data"] |}).
  - by vm_compute.
  - reflexivity.
Defined.

Lemma download_lock_contended_witness :
  @download sample_externals city_db w_contended
  = (inl (LockException (path city_db)), log (EvOpen (path city_db) "ab") w_contended).
Proof.
  apply (@download_lock_contended sample_externals city_db w_contended
           ["GeoLite2-City.mmdb"; "data"] old_mmdb).
  - reflexivity.
  - reflexivity.
  - change (locked w_contended) with ({[ ["GeoLite2-City.mmdb"; "data"] ]} : gset key).
    by apply elem_of_singleton_2.
Defined.

Lemma download_keeps_other_entries_witness :
  entry (fs (snd (@download sample_externals city_db (w_installed city_archive)))) ["data"]
  = Some Dir
  ∨ (resolve (fs (w_installed city_archive)) (cwd (w_installed city_archive)) (path city_db)
     = Some ["data"]
     ∧ ∃ c c', Dir = File c
               ∧ entry (fs (snd (@download sample_externals city_db
                                   (w_installed city_archive)))) ["data"]
                 = Some (File c')).
Proof.
  apply (@download_keeps_other_entries sample_externals city_db
           (w_installed city_archive) ["data"] Dir).
  reflexivity.
Defined.

Lemma exists_after_locked_download_witness :
  fst (exists_ city_db (snd (@download sample_externals city_db w_offline))) = inr true.
Proof.
  apply (@exists_after_locked_download sample_externals city_db w_offline
           (locked_world (path city_db) ["GeoLite2-City.mmdb"; "data"] w_offline)
           {| fh_name := path city_db; fh_key := ["GeoLite2-City.mmdb"; "data"] |}).
  by vm_compute.
Defined.

Lemma reader_after_download_witness :
  ∃ b, lstat (fs (snd (@download sample_externals city_db (w_fresh city_archive))))
             (cwd (snd (@download sample_externals city_db (w_fresh city_archive))))
             (path city_db)
       = Some (File b)
       ∧ if @mmdb_valid sample_externals b
         then ∃ r, fst (@reader sample_externals city_db
                          (snd (@download sample_externals city_db (w_fresh city_archive))))
                   = inr (r, set_reader city_db r)
                   ∧ geoip2.buffer r = b
                   ∧ geoip2.fileish r = path city_db
         else fst (@reader sample_externals city_db
                     (snd (@download sample_externals city_db (w_fresh city_archive))))
              = inl (InvalidDatabaseError (path city_db)).
Proof.
  apply (@reader_after_download sample_externals city_db (w_fresh city_archive)).
  - by vm_compute.
  - reflexivity.
Defined.

Lemma reader_after_failed_download_witness :
  lstat (fs (snd (@download sample_externals city_db w_offline)))
        (cwd (snd (@download sample_externals city_db w_offline))) (path city_db)
  = Some (File [])
  ∧ fst (@reader sample_externals city_db (snd (@download sample_externals city_db w_offline)))
    = inl (InvalidDatabaseError (path city_db)).
Proof.
  apply (@reader_after_failed_download sample_externals city_db w_offline
           (locked_world (path city_db) ["GeoLite2-City.mmdb"; "data"] w_offline)
           _
           {| fh_name := path city_db; fh_key := ["GeoLite2-City.mmdb"; "data"] |}
           RequestException).
  - reflexivity.
  - by vm_compute.
  - by vm_compute.
  - by vm_compute.
  - reflexivity.
Defined.

Lemma alias_same_manager_witness :
  DATABASE_ALIASES !! "GeoLite2-City" = None
  ∧ @__init__ sample_externals "city" (Some "/data") (Some "secret") w_bare
    = @__init__ sample_externals "GeoLite2-City" (Some "/data") (Some "secret") w_bare.
Proof.
  apply (@alias_same_manager sample_externals "city" "GeoLite2-City").
  reflexivity.
Defined.


Example download_cut_off_is_RequestException :
  fst (@download sample_externals city_db w_cut_off) = inl RequestException.
Proof. by vm_compute. Qed.
